(** * live-image-post-update-version.py: appending [rootwait] to the
      installer's boot-loader entry

    A shallow embedding of [scripts/live-image-post-update-version.py]:
    the function [append_rootwait], the [__main__] block that wraps it, and
    as much of the Python runtime and of the operating system as the two
    of them touch.

    Conventions of the model.
    - A Python [str] is a [string]; each [ascii] stands for the code point
      of the same number, so the model covers the code points below 256.
      File contents are kept at the level of decoded text: the codec of
      text mode round-trips on every decodable file, and a file that does
      not decode is outside the model.
    - The file system is a finite map from directory paths to listings and
      a finite map from file paths to contents, with a log of the system
      calls that were attempted.  Paths are compared as written (no
      normalisation, no symbolic links).
    - An exception is a value; a computation is a function from the world
      to a result (exception or value) and the world it leaves.
    - Standard output is a stream that takes what is printed: [stdout] is
      the text the process handed to [print], and a standard output that
      is closed or full is outside the model. *)

From Stdlib Require Import ZArith Ascii String List Bool Lia.
From stdpp Require Import base gmap strings list fin_maps pretty.

(** ** Characters and strings of the Python runtime *)

Module PyStr.

Definition LF : ascii := ascii_of_nat 10.
Definition CR : ascii := ascii_of_nat 13.
Definition TAB : ascii := ascii_of_nat 9.
Definition SQUOTE : ascii := ascii_of_nat 39.
Definition DQUOTE : ascii := ascii_of_nat 34.
Definition BACKSLASH : ascii := ascii_of_nat 92.
Definition SLASH : ascii := ascii_of_nat 47.

(** The one-character string, and the newline ["\n"] of the source. *)
Definition chr (c : ascii) : string := String c EmptyString.
Definition nl : string := chr LF.

(** [s.startswith(p)]. *)
Definition startswith (s p : string) : bool := String.prefix p s.

(** [s[:-1]]: every character but the last; the empty string stays empty,
    a slice never raises. *)
Fixpoint slice_to_minus1 (s : string) : string :=
  match s with
  | EmptyString => EmptyString
  | String c EmptyString => EmptyString
  | String c rest => String c (slice_to_minus1 rest)
  end.

(** [c in s]. *)
Fixpoint contains (c : ascii) (s : string) : bool :=
  match s with
  | EmptyString => false
  | String d rest => Ascii.eqb c d || contains c rest
  end.

(** [''.join(ls)]. *)
Fixpoint join (ls : list string) : string :=
  match ls with
  | [] => EmptyString
  | l :: rest => l +:+ join rest
  end.

(** [sep.join(ls)]. *)
Fixpoint join_with (sep : string) (ls : list string) : string :=
  match ls with
  | [] => EmptyString
  | [l] => l
  | l :: rest => l +:+ sep +:+ join_with sep rest
  end.

(** *** [repr] of a string and [str] of a list of strings

    CPython's [unicode_repr]: the string is quoted with ['], or with ["]
    when it holds a ['] and no ["]; the quote and the backslash are
    escaped with a backslash, tab, line feed and carriage return are
    written [\t], [\n], [\r], every other non-printable code point below
    256 is written [\xhh] with lower-case digits. *)

Definition hexdigit (n : nat) : ascii :=
  match n with
  | 0 => "0" | 1 => "1" | 2 => "2" | 3 => "3" | 4 => "4"
  | 5 => "5" | 6 => "6" | 7 => "7" | 8 => "8" | 9 => "9"
  | 10 => "a" | 11 => "b" | 12 => "c" | 13 => "d" | 14 => "e"
  | _ => "f"
  end%char.

Definition hex_escape (c : ascii) : string :=
  let n := nat_of_ascii c in
  String BACKSLASH (String "x"%char (String (hexdigit (n / 16)%nat) (chr (hexdigit (n mod 16)%nat)))).

(** [str.isprintable] on the code points below 256: the C0 and C1
    controls, DEL, the no-break space and the soft hyphen are not. *)
Definition isprintable (c : ascii) : bool :=
  let n := nat_of_ascii c in
  (((32 <=? n) && (n <? 127)) || ((161 <=? n) && negb (n =? 173)))%nat.

Definition repr_quote (s : string) : ascii :=
  if contains SQUOTE s && negb (contains DQUOTE s) then DQUOTE else SQUOTE.

Definition repr_char (quote c : ascii) : string :=
  if Ascii.eqb c quote || Ascii.eqb c BACKSLASH then String BACKSLASH (chr c)
  else if Ascii.eqb c TAB then String BACKSLASH (chr "t"%char)
  else if Ascii.eqb c LF then String BACKSLASH (chr "n"%char)
  else if Ascii.eqb c CR then String BACKSLASH (chr "r"%char)
  else if isprintable c then chr c
  else hex_escape c.

Fixpoint repr_body (quote : ascii) (s : string) : string :=
  match s with
  | EmptyString => EmptyString
  | String c rest => repr_char quote c +:+ repr_body quote rest
  end.

Definition repr (s : string) : string :=
  let q := repr_quote s in
  String q (repr_body q s +:+ chr q).

(** [str(ls)] for a list of strings, as [str.format] renders it. *)
Definition str_list (ls : list string) : string :=
  "[" +:+ join_with ", " (map repr ls) +:+ "]".

End PyStr.

(** ** Text-mode files *)

Module TextIO.
Import PyStr.

(** Reading with [newline=None] (the default of [open]): universal
    newlines, ["\r\n"] and a lone ["\r"] both arrive as ["\n"]. *)
Fixpoint universal_newlines (s : string) : string :=
  match s with
  | EmptyString => EmptyString
  | String c rest =>
      if Ascii.eqb c CR then
        match rest with
        | String d rest' =>
            if Ascii.eqb d LF then String LF (universal_newlines rest')
            else String LF (universal_newlines rest)
        | EmptyString => String LF EmptyString
        end
      else String c (universal_newlines rest)
  end.

(** Cutting a text after every ["\n"]; each line keeps its terminator and
    a last piece without one is a line too. *)
Fixpoint split_keepends (s : string) : list string :=
  match s with
  | EmptyString => []
  | String c rest =>
      if Ascii.eqb c LF then chr c :: split_keepends rest
      else match split_keepends rest with
           | [] => [chr c]
           | l :: ls => String c l :: ls
           end
  end.

(** [f.readlines()] on a file opened with mode ["r"]. *)
Definition readlines (content : string) : list string :=
  split_keepends (universal_newlines content).

(** [f.writelines(ls)] on a file opened with mode ["w"]: the lines are
    written one after the other, nothing is added between them; on Linux
    [os.linesep] is ["\n"], so the translation of ["\n"] on output is the
    identity. *)
Definition writelines (ls : list string) : string := join ls.

End TextIO.

(** ** Exceptions and Python's list indexing *)

Module Py.
Import PyStr.

(** The exceptions the script can raise that [except Exception] catches:
    the two it raises itself, the [IndexError] of list indexing, and the
    [OSError] family of the system calls. *)
Inductive exn : Type :=
| Exception (msg : string)
| IndexError (msg : string)
| OSError (errno : N) (strerror filename : string).

(** [str(e)], what [print(e)] shows. *)
Definition str_exn (e : exn) : string :=
  match e with
  | Exception msg => msg
  | IndexError msg => msg
  | OSError errno strerror filename =>
      "[Errno " +:+ pretty errno +:+ "] " +:+ strerror +:+ ": " +:+ repr filename
  end.

(** The position a Python index denotes in a sequence of length [n]:
    a negative index counts from the end. *)
Definition norm_index (n : nat) (i : Z) : option nat :=
  let j := (if i <? 0 then i + Z.of_nat n else i)%Z in
  if ((j <? 0) || (Z.of_nat n <=? j))%Z then None else Some (Z.to_nat j).

(** [ls[i]]. *)
Definition getitem {A : Type} (ls : list A) (i : Z) : exn + A :=
  match norm_index (length ls) i with
  | Some j =>
      match ls !! j with
      | Some x => inr x
      | None => inl (IndexError "list index out of range")
      end
  | None => inl (IndexError "list index out of range")
  end.

(** [ls[i] = x]. *)
Definition setitem {A : Type} (ls : list A) (i : Z) (x : A) : exn + list A :=
  match norm_index (length ls) i with
  | Some j => inr (<[j:=x]> ls)
  | None => inl (IndexError "list assignment index out of range")
  end.

End Py.

(** ** The operating system: directories, files and the calls on them *)

Module OS.
Import PyStr TextIO Py.

(** The system calls behind [os.listdir], [open] and [os.unlink]; reading
    and writing are calls of their own, made while the file is open. *)
Inductive syscall : Type :=
| SysListdir | SysOpenRead | SysRead | SysUnlink | SysOpenWrite | SysWrite.

Global Instance syscall_eq_dec : EqDecision syscall.
Proof. solve_decision. Defined.

(** [dirs] maps the path of a directory, written with its final slash, to
    the names in it, in the order [os.listdir] returns them; [files] maps
    the path of a regular file to its text; [io_log] lists the calls that
    were attempted, oldest first. *)
Record world : Type := World {
  dirs : gmap string (list string);
  files : gmap string string;
  io_log : list (syscall * string)
}.

(** A computation: it reads and changes the world, and raises or returns. *)
Definition io (A : Type) : Type := world -> (exn + A) * world.

Definition ret {A : Type} (x : A) : io A := fun w => (inr x, w).
Definition raise {A : Type} (e : exn) : io A := fun w => (inl e, w).
Definition bind {A B : Type} (m : io A) (k : A -> io B) : io B :=
  fun w =>
    match m w with
    | (inr x, w') => k x w'
    | (inl e, w') => (inl e, w')
    end.
Definition lift {A : Type} (r : exn + A) : io A := fun w => (r, w).

Definition logged (c : syscall) (p : string) (w : world) : world :=
  World (dirs w) (files w) (io_log w ++ [(c, p)]).

(** A path as written, cut at its last slash: the directory with its
    final slash, and the name after it.  The platform resolves the path
    of a file to an entry of that name in that directory. *)
Fixpoint path_split (p : string) : string * string :=
  match p with
  | EmptyString => (EmptyString, EmptyString)
  | String c rest =>
      let (d, b) := path_split rest in
      if Ascii.eqb c SLASH then (String c d, b)
      else match d with
           | EmptyString => (EmptyString, String c b)
           | _ => (String c d, b)
           end
  end.

Definition remove_name (n : string) (listing : list string) : list string :=
  filter (fun m => m <> n) listing.

Definition add_name (n : string) (listing : list string) : list string :=
  if decide (n ∈ listing) then listing else listing ++ [n].

Definition ENOENT (p : string) : exn := OSError 2 "No such file or directory" p.
Definition EISDIR (p : string) : exn := OSError 21 "Is a directory" p.

(** What the platform does when a path names no regular file. *)
Definition no_file (w : world) (p : string) : exn :=
  match dirs w !! (p +:+ "/") with
  | Some _ => EISDIR p
  | None => ENOENT p
  end.

(** The first [n] characters of a text. *)
Fixpoint str_take (n : nat) (s : string) : string :=
  match n, s with
  | S k, String c rest => String c (str_take k rest)
  | _, _ => EmptyString
  end.

(** The failures that come from outside the program (a full disk, an I/O
    error, a permission): for each call, whether the platform fails it and
    with which [errno] and message; and, for a write that fails, how many
    characters of the text had reached the file before it failed. *)
Record fault_plan : Type := FaultPlan {
  fails :> syscall -> option (N * string);
  short_write : nat
}.

Section Calls.

Variable fault : fault_plan.

Definition attempt (c : syscall) (p : string) : io unit :=
  fun w =>
    match fault c with
    | Some (errno, strerror) => (inl (OSError errno strerror p), logged c p w)
    | None => (inr tt, logged c p w)
    end.

(** [os.listdir(p)]. *)
Definition os_listdir (p : string) : io (list string) :=
  bind (attempt SysListdir p) (fun _ w =>
    match dirs w !! p with
    | Some names => (inr names, w)
    | None => (inl (ENOENT p), w)
    end).

(** [with open(p, "r") as f: f.readlines()]. *)
Definition open_readlines (p : string) : io (list string) :=
  bind (attempt SysOpenRead p) (fun _ w =>
    match files w !! p with
    | Some content =>
        bind (attempt SysRead p) (fun _ => ret (readlines content)) w
    | None => (inl (no_file w p), w)
    end).

(** [os.unlink(p)]: the file goes, and its name leaves its directory. *)
Definition os_unlink (p : string) : io unit :=
  bind (attempt SysUnlink p) (fun _ w =>
    match files w !! p with
    | Some _ =>
        let (d, b) := path_split p in
        (inr tt, World (alter (remove_name b) d (dirs w)) (delete p (files w)) (io_log w))
    | None => (inl (no_file w p), w)
    end).

(** Writing a text to the file open at [p]: the text is buffered and
    flushed when the file is closed.  When the platform fails the write,
    the file keeps the characters that had reached it, none, some or all
    of them, and the error is raised. *)
Definition write_text (p : string) (text : string) : io unit :=
  fun w =>
    match fault SysWrite with
    | Some (errno, strerror) =>
        (inl (OSError errno strerror p),
         World (dirs w) (<[p := str_take (short_write fault) text]> (files w))
               (io_log w ++ [(SysWrite, p)]))
    | None =>
        (inr tt, World (dirs w) (<[p := text]> (files w)) (io_log w ++ [(SysWrite, p)]))
    end.

(** [with open(p, "w") as f: f.writelines(ls)]: opening creates the file
    empty (or empties it) in a directory that exists; the lines reach the
    file when the write succeeds. *)
Definition open_writelines (p : string) (ls : list string) : io unit :=
  bind (attempt SysOpenWrite p) (fun _ w =>
    let (d, b) := path_split p in
    match dirs w !! d with
    | Some listing =>
        write_text p (writelines ls)
          (World (<[d := add_name b listing]> (dirs w))
                 (<[p := EmptyString]> (files w)) (io_log w))
    | None => (inl (ENOENT p), w)
    end).

End Calls.

(** The platform fails no call. *)
Definition no_fault : fault_plan := FaultPlan (fun _ => None) 0.

End OS.

(** ** The script *)

Module Script.
Import PyStr TextIO Py OS.

Notation "'do' x <- m ; k" := (bind m (fun x => k))
  (at level 10, x name, m at level 100, k at level 200, only parsing).

Section Script.

Variable fault : fault_plan.

(** [append_rootwait(path)], statement by statement. *)
Definition append_rootwait (path : string) : io unit :=
  let entry_path := path +:+ "/boot/loader/entries/" in
  do entry_file <- os_listdir fault entry_path;
  if negb (length entry_file =? 1)%nat then
    raise (Exception ("Unable to find specific entry file in " +:+ entry_path +:+ ", "
                      +:+ "found " +:+ str_list entry_file +:+ " instead"))
  else
  do name <- lift (getitem entry_file 0);
  let file_full_path := entry_path +:+ name in
  do entry_content <- open_readlines fault file_full_path;
  do options_line <- lift (getitem entry_content (-1));
  if negb (startswith options_line "options ") then
    raise (Exception ("Last line of entry file is not the kernel "
                      +:+ "commandline options"))
  else
  let options_line := slice_to_minus1 options_line +:+ " rootwait" +:+ nl in
  do entry_content <- lift (setitem entry_content (-1) options_line);
  do _ <- os_unlink fault file_full_path;
  open_writelines fault file_full_path entry_content.

(** What the process leaves behind: the argument of [sys.exit], what it
    printed on standard output, and the world. *)
Record process : Type := Process {
  exit_code : Z;
  stdout : string;
  final : world
}.

(** [print(x)]: the text and a newline, on a standard output that takes
    them. *)
Definition print (x : string) : string := x +:+ nl.

(** The [__main__] block; [argv] is [sys.argv], script name included. *)
Definition main (argv : list string) (w : world) : process :=
  if negb (length argv =? 2)%nat then Process (-1) EmptyString w
  else
    match getitem argv 1 with
    | inl e => Process (-1) (print (str_exn e)) w
    | inr arg =>
        match append_rootwait arg w with
        | (inr _, w') => Process 0 EmptyString w'
        | (inl exep, w') => Process (-1) (print (str_exn exep)) w'
        end
    end.

End Script.

End Script.

Import PyStr TextIO Py OS Script.

(** The directory of the entries and the path of the entry, as
    [append_rootwait] forms them in its local variables. *)
Definition entry_path (path : string) : string := path +:+ "/boot/loader/entries/".
Definition file_full_path (path name : string) : string := entry_path path +:+ name.

(** ** Vocabulary of the statements *)

(** A world whose entries directory under [root] holds one file. *)
Definition single_entry_world (root name content : string) : world :=
  World {[ entry_path root := [name] ]} {[ file_full_path root name := content ]} [].

(** The lines of a file as they are on disk: cut after every line feed,
    nothing translated. *)
Definition raw_lines (content : string) : list string := split_keepends content.

(** The new last line in the words of the specification: the old one with
    its trailing newline character removed, a space, [rootwait] and a
    newline.  A line without trailing newline has nothing to remove. *)
Fixpoint strip_trailing_newline (s : string) : string :=
  match s with
  | EmptyString => EmptyString
  | String c EmptyString => if Ascii.eqb c LF then EmptyString else s
  | String c rest => String c (strip_trailing_newline rest)
  end.

Definition spec_options_line (old : string) : string :=
  strip_trailing_newline old +:+ " rootwait" +:+ nl.

(** The new last line as [append_rootwait] computes it. *)
Definition code_options_line (old : string) : string :=
  slice_to_minus1 old +:+ " rootwait" +:+ nl.

(** Reading [repr] back, one character at a time: the character that
    the text starts with inside a string quoted with [quote], and the rest
    of the text; nothing at the closing quote. *)
Definition hexval (c : ascii) : option nat :=
  let n := nat_of_ascii c in
  if ((48 <=? n) && (n <=? 57))%nat then Some (n - 48)
  else if ((97 <=? n) && (n <=? 102))%nat then Some (n - 87)
  else None.

Definition unrepr_char (quote : ascii) (s : string) : option (ascii * string) :=
  match s with
  | EmptyString => None
  | String c rest =>
      if Ascii.eqb c quote then None
      else if Ascii.eqb c BACKSLASH then
        match rest with
        | EmptyString => None
        | String e rest1 =>
            if Ascii.eqb e "x" then
              match rest1 with
              | String h1 (String h2 rest2) =>
                  match hexval h1, hexval h2 with
                  | Some a, Some b => Some (ascii_of_nat (16 * a + b), rest2)
                  | _, _ => None
                  end
              | _ => None
              end
            else if Ascii.eqb e "t" then Some (TAB, rest1)
            else if Ascii.eqb e "n" then Some (LF, rest1)
            else if Ascii.eqb e "r" then Some (CR, rest1)
            else Some (e, rest1)
        end
      else Some (c, rest)
  end.

(** A name that [repr] writes as it is between single quotes: printable
    characters, no single quote, no backslash. *)
Definition plain_char (c : ascii) : bool :=
  isprintable c && negb (Ascii.eqb c SQUOTE) && negb (Ascii.eqb c BACKSLASH).

Fixpoint plain_name (s : string) : bool :=
  match s with
  | EmptyString => true
  | String c rest => plain_char c && plain_name rest
  end.

Definition quoted (s : string) : string := "'" +:+ s +:+ "'".


(** The calls that write to the file system or delete from it. *)
Definition mutates (c : syscall) : bool :=
  match c with
  | SysUnlink | SysOpenWrite | SysWrite => true
  | SysListdir | SysOpenRead | SysRead => false
  end.

(** The message of the second gate. *)
Definition prefix_message : string :=
  "Last line of entry file is not the kernel commandline options".

(** The scenario of the specification: root [/img], one entry
    [entry.conf] of three lines. *)
Definition scenario_content : string :=
  "title Test" +:+ nl +:+ "linux /vmlinuz" +:+ nl +:+ "options root=/dev/sda1" +:+ nl.

Definition scenario_world : world :=
  single_entry_world "/img" "entry.conf" scenario_content.

(** The same entry whose last line is not closed by a newline. *)
Definition unterminated_content : string :=
  "title Test" +:+ nl +:+ "linux /vmlinuz" +:+ nl +:+ "options root=/dev/sda1".

Definition unterminated_world : world :=
  single_entry_world "/img" "entry.conf" unterminated_content.

(** The same entry with lines closed by carriage return and line feed. *)
Definition crlf_content : string :=
  "title Test" +:+ chr CR +:+ nl +:+ "linux /vmlinuz" +:+ chr CR +:+ nl
  +:+ "options root=/dev/sda1" +:+ chr CR +:+ nl.

Definition crlf_world : world :=
  single_entry_world "/img" "entry.conf" crlf_content.

(** An entries directory with two names, and an empty one. *)
Definition two_entries_world : world :=
  World {[ entry_path "/img" := ["a.conf"; "b.conf"] ]}
        {[ file_full_path "/img" "a.conf" := scenario_content;
           file_full_path "/img" "b.conf" := scenario_content ]} [].

Definition no_entry_world : world :=
  World {[ entry_path "/img" := [] ]} ∅ [].

(** An entry that is an empty file, and one whose last line is no options
    line. *)
Definition empty_entry_world : world :=
  single_entry_world "/img" "entry.conf" EmptyString.

Definition no_options_world : world :=
  single_entry_world "/img" "entry.conf" ("title Test" +:+ nl +:+ "linux /vmlinuz" +:+ nl).

(** An entry of one line. *)
Definition one_line_world : world :=
  single_entry_world "/img" "entry.conf" ("options root=/dev/sda1" +:+ nl).

(** The entry of the idempotence example. *)
Definition console_world : world :=
  single_entry_world "/img" "entry.conf"
    ("title Test" +:+ nl +:+ "options console=ttyS0" +:+ nl).

(** The disk is full when the entry is opened for writing, or when the
    lines are written. *)
Definition full_disk_at (c : syscall) : fault_plan :=
  FaultPlan
    (fun c' => if decide (c' = c) then Some (28%N, "No space left on device") else None)
    0.

(** The write fails after [n] characters have reached the file (a limit
    on the size of files). *)
Definition file_too_large_after (n : nat) : fault_plan :=
  FaultPlan
    (fun c => if decide (c = SysWrite) then Some (27%N, "File too large") else None)
    n.

(** The scenario's world with a second file, outside the entries
    directory. *)
Definition neighbour_world : world :=
  World {[ entry_path "/img" := ["entry.conf"]; "/img/etc/" := ["fstab"] ]}
        {[ file_full_path "/img" "entry.conf" := scenario_content;
           "/img/etc/fstab" := "/dev/sda1 / ext4 defaults 0 1" +:+ nl ]} [].

(** The state in which [append_rootwait] reaches its write step: the
    listing holds one name, the entry was read, its last line starts with
    [options ], and the platform failed none of the four calls made up to
    and including [os.unlink]. *)
Definition ready (fault : fault_plan) (path : string) (w : world)
    : Prop :=
  exists name content pre last,
    dirs w !! entry_path path = Some [name] /\
    files w !! file_full_path path name = Some content /\
    readlines content = pre ++ [last] /\
    startswith last "options " = true /\
    fault SysListdir = None /\ fault SysOpenRead = None /\
    fault SysRead = None /\ fault SysUnlink = None.

(** [n] times the token the script appends, each with its space. *)
Fixpoint rootwaits (n : nat) : string :=
  match n with
  | O => EmptyString
  | S k => rootwaits k +:+ " rootwait"
  end.

(** The script's function called [n] times in a row on the same root,
    stopping at the first call that raises. *)
Fixpoint runs (fault : fault_plan) (path : string) (n : nat)
    : io unit :=
  match n with
  | O => ret tt
  | S k => bind (append_rootwait fault path) (fun _ => runs fault path k)
  end.

(** ** Facts about strings and lines *)

Section TextFacts.

#[local] Arguments Ascii.eqb : simpl never.

Lemma str_app_cons (c : ascii) (s t : string) : String c s +:+ t = String c (s +:+ t).
Proof. reflexivity. Qed.

Lemma str_app_nil_l (t : string) : EmptyString +:+ t = t.
Proof. reflexivity. Qed.

Lemma str_app_nil_r (s : string) : s +:+ EmptyString = s.
Proof. induction s as [|c s IH]; [reflexivity|]. rewrite str_app_cons, IH. reflexivity. Qed.

Lemma str_app_assoc (s t u : string) : (s +:+ t) +:+ u = s +:+ (t +:+ u).
Proof.
  induction s as [|c s IH]; [reflexivity|].
  rewrite !str_app_cons, IH. reflexivity.
Qed.

Lemma contains_app (c : ascii) (s t : string) :
  contains c (s +:+ t) = contains c s || contains c t.
Proof.
  induction s as [|d s IH]; [reflexivity|].
  rewrite str_app_cons. simpl. rewrite IH. apply orb_assoc.
Qed.

Lemma slice_cons (c d : ascii) (s : string) :
  slice_to_minus1 (String c (String d s)) = String c (slice_to_minus1 (String d s)).
Proof. reflexivity. Qed.

Lemma slice_app (s t : string) :
  t <> EmptyString -> slice_to_minus1 (s +:+ t) = s +:+ slice_to_minus1 t.
Proof.
  intros Ht. induction s as [|c s IH]; [reflexivity|].
  rewrite !str_app_cons. destruct (s +:+ t) as [|d u] eqn:E.
  - destruct s; [rewrite str_app_nil_l in E; contradiction | discriminate].
  - rewrite slice_cons, IH. reflexivity.
Qed.

Lemma slice_snoc (s : string) (c : ascii) : slice_to_minus1 (s +:+ chr c) = s.
Proof. rewrite slice_app by discriminate. apply str_app_nil_r. Qed.

Lemma contains_slice (c : ascii) (s : string) :
  contains c s = false -> contains c (slice_to_minus1 s) = false.
Proof.
  induction s as [|d s IH]; [reflexivity|].
  destruct s as [|e s]; [reflexivity|].
  rewrite slice_cons. intros H.
  change (Ascii.eqb c d || contains c (String e s) = false) in H.
  change (Ascii.eqb c d || contains c (slice_to_minus1 (String e s)) = false).
  apply orb_false_iff in H as [H1 H2]. rewrite H1, (IH H2). reflexivity.
Qed.

Lemma join_app (a b : list string) : join (a ++ b) = join a +:+ join b.
Proof.
  induction a as [|l a IH]; [reflexivity|].
  simpl. rewrite IH, str_app_assoc. reflexivity.
Qed.

Lemma join_singleton (l : string) : join [l] = l.
Proof. apply str_app_nil_r. Qed.

(** Writing back the lines that were read gives the text that was read. *)
Lemma join_split_keepends (s : string) : join (split_keepends s) = s.
Proof.
  induction s as [|c s IH]; [reflexivity|].
  simpl. destruct (Ascii.eqb c LF).
  - simpl. rewrite IH. reflexivity.
  - destruct (split_keepends s) as [|l ls]; simpl in *.
    + rewrite <- IH. reflexivity.
    + rewrite str_app_cons, IH. reflexivity.
Qed.

Lemma split_keepends_nil (s : string) : split_keepends s = [] -> s = EmptyString.
Proof.
  intros H. rewrite <- (join_split_keepends s), H. reflexivity.
Qed.

(** No line is empty. *)
Lemma split_keepends_nonempty (s : string) :
  Forall (fun l => l <> EmptyString) (split_keepends s).
Proof.
  induction s as [|c s IH]; [constructor|].
  simpl. destruct (Ascii.eqb c LF).
  - constructor; [discriminate | exact IH].
  - destruct (split_keepends s) as [|l ls].
    + constructor; [discriminate | constructor].
    + inversion IH; subst. constructor; [discriminate | assumption].
Qed.

Lemma last_line_nonempty (s : string) (pre : list string) (last : string) :
  split_keepends s = pre ++ [last] -> last <> EmptyString.
Proof.
  intros H. pose proof (split_keepends_nonempty s) as HF. rewrite H in HF.
  apply Forall_app in HF as [_ HF]. inversion HF; assumption.
Qed.

(** Dropping the last character of the last line drops the last character
    of the text. *)
Lemma join_slice_last (s : string) (pre : list string) (last : string) :
  split_keepends s = pre ++ [last] ->
  join pre +:+ slice_to_minus1 last = slice_to_minus1 s.
Proof.
  intros H. rewrite <- (join_split_keepends s).
  rewrite H, join_app, join_singleton, slice_app; [reflexivity|].
  eapply last_line_nonempty; eassumption.
Qed.

Lemma eqb_CR_LF : Ascii.eqb CR LF = false.
Proof. reflexivity. Qed.

(** A text without carriage return is read as it is. *)
Lemma universal_newlines_id (s : string) :
  contains CR s = false -> universal_newlines s = s.
Proof.
  induction s as [|c s IH]; [reflexivity|].
  simpl. rewrite (Ascii.eqb_sym c CR). intros H.
  apply orb_false_iff in H as [H1 H2]. rewrite H1, (IH H2). reflexivity.
Qed.

(** What is read holds no carriage return. *)
Lemma universal_newlines_no_cr (s : string) :
  contains CR (universal_newlines s) = false.
Proof.
  enough (contains CR (universal_newlines s) = false /\
          forall c, contains CR (universal_newlines (String c s)) = false) as [H _]
    by exact H.
  induction s as [|d s [IH1 IH2]].
  - split; [reflexivity|]. intros c. simpl.
    destruct (Ascii.eqb c CR) eqn:E; [reflexivity|].
    simpl. rewrite (Ascii.eqb_sym CR c), E. reflexivity.
  - split; [apply IH2|]. intros c.
    change (universal_newlines (String c (String d s))) with
      (if Ascii.eqb c CR then
         if Ascii.eqb d LF then String LF (universal_newlines s)
         else String LF (universal_newlines (String d s))
       else String c (universal_newlines (String d s))).
    destruct (Ascii.eqb c CR) eqn:E.
    + destruct (Ascii.eqb d LF);
        change (Ascii.eqb CR LF || contains CR (universal_newlines s) = false)
        || change (Ascii.eqb CR LF || contains CR (universal_newlines (String d s)) = false);
        rewrite eqb_CR_LF; [apply IH1 | apply IH2].
    + change (Ascii.eqb CR c || contains CR (universal_newlines (String d s)) = false).
      rewrite (Ascii.eqb_sym CR c), E. apply IH2.
Qed.

(** A body without line feed, closed by one, is one line. *)
Lemma split_keepends_single (b : string) :
  contains LF b = false -> split_keepends (b +:+ nl) = [b +:+ nl].
Proof.
  induction b as [|c b IH]; [reflexivity|].
  simpl. rewrite (Ascii.eqb_sym LF c). intros H.
  apply orb_false_iff in H as [H1 H2].
  rewrite str_app_cons. simpl. rewrite H1, (IH H2). reflexivity.
Qed.

(** The lines before the last one are closed: text put after them starts
    a line of its own. *)
Lemma split_keepends_prefix (s : string) :
  forall (pre : list string) (last t : string),
    split_keepends s = pre ++ [last] ->
    split_keepends (join pre +:+ t) = pre ++ split_keepends t.
Proof.
  induction s as [|c s IH]; intros pre last t H.
  - destruct pre; discriminate.
  - simpl in H. destruct (Ascii.eqb c LF) eqn:E.
    + destruct pre as [|l pre]; [reflexivity|].
      simpl in H. injection H as <- H.
      simpl. rewrite E, str_app_nil_l, (IH _ _ _ H). reflexivity.
    + destruct (split_keepends s) as [|l ls] eqn:Es.
      * destruct pre as [|l' pre]; [reflexivity|].
        destruct pre; discriminate.
      * destruct pre as [|l' pre]; [reflexivity|].
        simpl in H. injection H as <- H.
        specialize (IH (l :: pre) last t). simpl in IH.
        rewrite H in IH. specialize (IH eq_refl).
        simpl. rewrite E, IH. reflexivity.
Qed.

(** Only the last character of the last line can be a line feed. *)
Lemma last_line_body (s : string) :
  forall (pre : list string) (last : string),
    split_keepends s = pre ++ [last] ->
    contains LF (slice_to_minus1 last) = false.
Proof.
  induction s as [|c s IH]; intros pre last H.
  - destruct pre; discriminate.
  - simpl in H. destruct (Ascii.eqb c LF) eqn:E.
    + destruct pre as [|l pre].
      * simpl in H. injection H as <- H. reflexivity.
      * simpl in H. injection H as _ H. eapply IH; eassumption.
    + destruct (split_keepends s) as [|l ls] eqn:Es.
      * destruct pre as [|l' pre]; [|destruct pre; discriminate].
        simpl in H. injection H as <-. reflexivity.
      * destruct pre as [|l' pre].
        -- simpl in H. injection H as <- ->.
           specialize (IH [] l eq_refl).
           destruct l as [|d l]; [reflexivity|].
           rewrite slice_cons.
           change (Ascii.eqb LF c || contains LF (slice_to_minus1 (String d l)) = false).
           rewrite (Ascii.eqb_sym LF c), E. exact IH.
        -- simpl in H. injection H as _ H.
           apply (IH (l :: pre) last). simpl. rewrite H. reflexivity.
Qed.

(** The text the script writes, read again: the lines before the last as
    they were read, and the new last line. *)
Lemma readlines_rewritten (content : string) (pre : list string) (last tail : string) :
  readlines content = pre ++ [last] ->
  contains CR tail = false -> contains LF tail = false ->
  readlines (join pre +:+ slice_to_minus1 last +:+ tail +:+ nl)
  = pre ++ [slice_to_minus1 last +:+ tail +:+ nl].
Proof.
  intros H Hcr Hlf. unfold readlines in *.
  rewrite universal_newlines_id.
  - rewrite (split_keepends_prefix _ _ _ _ H). f_equal.
    rewrite <- str_app_assoc. rewrite split_keepends_single; [reflexivity|].
    rewrite contains_app, Hlf, (last_line_body _ _ _ H). reflexivity.
  - rewrite <- str_app_assoc, (join_slice_last _ _ _ H), !contains_app, Hcr.
    rewrite contains_slice by apply universal_newlines_no_cr. reflexivity.
Qed.

End TextFacts.

(** ** Facts about indexing and paths *)

Section IndexFacts.

Context {A : Type}.

Lemma norm_index_last (n : nat) : norm_index (S n) (-1) = Some n.
Proof.
  unfold norm_index.
  assert (H1 : (-1 <? 0)%Z = true) by reflexivity.
  assert (H2 : (-1 + Z.of_nat (S n) <? 0)%Z = false) by (apply Z.ltb_ge; lia).
  assert (H3 : (Z.of_nat (S n) <=? -1 + Z.of_nat (S n))%Z = false)
    by (apply Z.leb_gt; lia).
  rewrite H1, H2, H3. cbn [orb]. f_equal. lia.
Qed.

Lemma getitem_last (pre : list A) (x : A) : getitem (pre ++ [x]) (-1) = inr x.
Proof.
  unfold getitem. rewrite length_app, Nat.add_1_r, norm_index_last.
  rewrite lookup_app_r by lia. rewrite Nat.sub_diag. reflexivity.
Qed.

Lemma setitem_last (pre : list A) (x y : A) :
  setitem (pre ++ [x]) (-1) y = inr (pre ++ [y]).
Proof.
  unfold setitem. rewrite length_app, Nat.add_1_r, norm_index_last.
  rewrite insert_app_r_alt by lia. rewrite Nat.sub_diag. reflexivity.
Qed.

Lemma getitem_nil_last : getitem (@nil A) (-1) = inl (IndexError "list index out of range").
Proof. reflexivity. Qed.

End IndexFacts.

Section PathFacts.

#[local] Arguments Ascii.eqb : simpl never.

Lemma path_split_name (n : string) :
  contains SLASH n = false -> path_split n = (EmptyString, n).
Proof.
  induction n as [|c n IH]; [reflexivity|].
  simpl. rewrite (Ascii.eqb_sym SLASH c). intros H.
  apply orb_false_iff in H as [H1 H2]. rewrite (IH H2), H1. reflexivity.
Qed.

(** A path made of a directory written with its final slash and of a name
    splits into the two. *)
Lemma path_split_join (d n : string) :
  contains SLASH n = false ->
  path_split ((d +:+ "/") +:+ n) = (d +:+ "/", n).
Proof.
  intros Hn. induction d as [|c d IH].
  - change (path_split (String SLASH n) = (chr SLASH, n)).
    simpl. rewrite (path_split_name n Hn). reflexivity.
  - rewrite !str_app_cons. simpl. rewrite IH.
    destruct (Ascii.eqb c SLASH); [reflexivity|].
    destruct d; reflexivity.
Qed.

Lemma path_split_entry (path name : string) :
  contains SLASH name = false ->
  path_split (file_full_path path name) = (entry_path path, name).
Proof.
  intros Hn. unfold file_full_path, entry_path.
  change "/boot/loader/entries/" with ("/boot/loader/entries" +:+ "/").
  rewrite <- str_app_assoc. apply path_split_join, Hn.
Qed.

End PathFacts.

(** ** The calls, one by one *)

Section CallFacts.

Variable fault : fault_plan.

Lemma bind_value {A B : Type} (m : io A) (k : A -> io B) (w w' : world) (x : A) :
  m w = (inr x, w') -> bind m k w = k x w'.
Proof. intros H. unfold bind. rewrite H. reflexivity. Qed.

Lemma bind_raised {A B : Type} (m : io A) (k : A -> io B) (w w' : world) (e : exn) :
  m w = (inl e, w') -> bind m k w = (inl e, w').
Proof. intros H. unfold bind. rewrite H. reflexivity. Qed.

Lemma attempt_ok (c : syscall) (p : string) (w : world) :
  fault c = None -> attempt fault c p w = (inr tt, logged c p w).
Proof. intros H. unfold attempt. rewrite H. reflexivity. Qed.

Lemma attempt_fault (c : syscall) (p : string) (w : world) (n : N) (m : string) :
  fault c = Some (n, m) -> attempt fault c p w = (inl (OSError n m p), logged c p w).
Proof. intros H. unfold attempt. rewrite H. reflexivity. Qed.

Lemma os_listdir_ok (p : string) (w : world) (names : list string) :
  fault SysListdir = None -> dirs w !! p = Some names ->
  os_listdir fault p w = (inr names, logged SysListdir p w).
Proof.
  intros Hf Hd. unfold os_listdir.
  rewrite (bind_value _ _ _ _ _ (attempt_ok _ _ _ Hf)).
  cbn [dirs logged]. rewrite Hd. reflexivity.
Qed.

Lemma os_listdir_fault (p : string) (w : world) (n : N) (m : string) :
  fault SysListdir = Some (n, m) ->
  os_listdir fault p w = (inl (OSError n m p), logged SysListdir p w).
Proof.
  intros Hf. unfold os_listdir.
  rewrite (bind_raised _ _ _ _ _ (attempt_fault _ _ _ _ _ Hf)). reflexivity.
Qed.

(** Listing a directory changes nothing but the log, whatever comes of it. *)
Lemma os_listdir_world (p : string) (w : world) :
  snd (os_listdir fault p w) = logged SysListdir p w.
Proof.
  unfold os_listdir, bind, attempt.
  destruct (fault SysListdir) as [[n m]|]; [reflexivity|].
  cbn [dirs logged]. destruct (dirs w !! p); reflexivity.
Qed.

Lemma open_readlines_ok (p : string) (w : world) (content : string) :
  fault SysOpenRead = None -> fault SysRead = None ->
  files w !! p = Some content ->
  open_readlines fault p w
  = (inr (readlines content), logged SysRead p (logged SysOpenRead p w)).
Proof.
  intros Hf1 Hf2 Hc. unfold open_readlines.
  rewrite (bind_value _ _ _ _ _ (attempt_ok _ _ _ Hf1)).
  cbn [files logged]. rewrite Hc.
  rewrite (bind_value _ _ _ _ _ (attempt_ok _ _ _ Hf2)). reflexivity.
Qed.

(** Opening and reading change nothing but the log, whatever comes of it. *)
Lemma open_readlines_world (p : string) (w : world) :
  exists evs,
    snd (open_readlines fault p w) = World (dirs w) (files w) (io_log w ++ evs) /\
    Forall (fun ev => fst ev = SysOpenRead \/ fst ev = SysRead) evs.
Proof.
  unfold open_readlines, bind, attempt.
  destruct (fault SysOpenRead) as [[n m]|].
  - exists [(SysOpenRead, p)]. split; [reflexivity|]. constructor; [left; reflexivity | constructor].
  - cbn [files logged]. destruct (files w !! p).
    + exists [(SysOpenRead, p); (SysRead, p)].
      split;
        [|constructor; [left; reflexivity | constructor; [right; reflexivity | constructor]]].
      destruct (fault SysRead) as [[n m]|]; unfold logged; cbn [snd ret dirs files io_log];
        rewrite <- List.app_assoc; reflexivity.
    + exists [(SysOpenRead, p)]. split; [reflexivity|]. constructor; [left; reflexivity | constructor].
Qed.

Lemma os_unlink_ok (p d b : string) (w : world) (content : string) :
  fault SysUnlink = None -> files w !! p = Some content -> path_split p = (d, b) ->
  os_unlink fault p w
  = (inr tt, World (alter (remove_name b) d (dirs w)) (delete p (files w))
                   (io_log w ++ [(SysUnlink, p)])).
Proof.
  intros Hf Hc Hp. unfold os_unlink.
  rewrite (bind_value _ _ _ _ _ (attempt_ok _ _ _ Hf)).
  cbn [files dirs io_log logged]. rewrite Hc, Hp. reflexivity.
Qed.

Lemma os_unlink_fault (p : string) (w : world) (n : N) (m : string) :
  fault SysUnlink = Some (n, m) ->
  os_unlink fault p w = (inl (OSError n m p), logged SysUnlink p w).
Proof.
  intros Hf. unfold os_unlink.
  rewrite (bind_raised _ _ _ _ _ (attempt_fault _ _ _ _ _ Hf)). reflexivity.
Qed.

Lemma open_writelines_ok (p d b : string) (w : world) (listing ls : list string) :
  fault SysOpenWrite = None -> fault SysWrite = None ->
  path_split p = (d, b) -> dirs w !! d = Some listing ->
  open_writelines fault p ls w
  = (inr tt, World (<[d := add_name b listing]> (dirs w))
                   (<[p := writelines ls]> (<[p := EmptyString]> (files w)))
                   (io_log w ++ [(SysOpenWrite, p); (SysWrite, p)])).
Proof.
  intros Hf1 Hf2 Hp Hd. unfold open_writelines.
  rewrite (bind_value _ _ _ _ _ (attempt_ok _ _ _ Hf1)).
  rewrite Hp. cbn [files dirs io_log logged]. rewrite Hd.
  unfold write_text. rewrite Hf2.
  unfold logged. cbn [files dirs io_log]. rewrite <- List.app_assoc. reflexivity.
Qed.

(** The open fails: nothing is created. *)
Lemma open_writelines_fault_open (p : string) (w : world) (ls : list string)
    (n : N) (m : string) :
  fault SysOpenWrite = Some (n, m) ->
  open_writelines fault p ls w = (inl (OSError n m p), logged SysOpenWrite p w).
Proof.
  intros Hf. unfold open_writelines.
  rewrite (bind_raised _ _ _ _ _ (attempt_fault _ _ _ _ _ Hf)). reflexivity.
Qed.

(** The open succeeds and the write fails: the file is there, empty. *)
Lemma open_writelines_fault_write (p d b : string) (w : world)
    (listing ls : list string) (n : N) (m : string) :
  fault SysOpenWrite = None -> fault SysWrite = Some (n, m) ->
  path_split p = (d, b) -> dirs w !! d = Some listing ->
  open_writelines fault p ls w
  = (inl (OSError n m p),
     World (<[d := add_name b listing]> (dirs w))
           (<[p := str_take (short_write fault) (writelines ls)]>
              (<[p := EmptyString]> (files w)))
           (io_log w ++ [(SysOpenWrite, p); (SysWrite, p)])).
Proof.
  intros Hf1 Hf2 Hp Hd. unfold open_writelines.
  rewrite (bind_value _ _ _ _ _ (attempt_ok _ _ _ Hf1)).
  rewrite Hp. cbn [files dirs io_log logged]. rewrite Hd.
  unfold write_text. rewrite Hf2.
  unfold logged. cbn [files dirs io_log]. rewrite <- List.app_assoc. reflexivity.
Qed.

Lemma open_readlines_fault_open (p : string) (w : world) (n : N) (m : string) :
  fault SysOpenRead = Some (n, m) ->
  open_readlines fault p w = (inl (OSError n m p), logged SysOpenRead p w).
Proof.
  intros Hf. unfold open_readlines.
  rewrite (bind_raised _ _ _ _ _ (attempt_fault _ _ _ _ _ Hf)). reflexivity.
Qed.

Lemma open_readlines_fault_read (p : string) (w : world) (content : string) (n : N) (m : string) :
  fault SysOpenRead = None -> fault SysRead = Some (n, m) ->
  files w !! p = Some content ->
  open_readlines fault p w
  = (inl (OSError n m p), logged SysRead p (logged SysOpenRead p w)).
Proof.
  intros Hf1 Hf2 Hc. unfold open_readlines.
  rewrite (bind_value _ _ _ _ _ (attempt_ok _ _ _ Hf1)).
  cbn [files logged]. rewrite Hc.
  rewrite (bind_raised _ _ _ _ _ (attempt_fault _ _ _ _ _ Hf2)). reflexivity.
Qed.

End CallFacts.

(** ** Runs of [append_rootwait] *)

Section RunFacts.

Variable fault : fault_plan.

Lemma bind_lift_value {A B : Type} (r : exn + A) (x : A) (k : A -> io B) (w : world) :
  r = inr x -> bind (lift r) k w = k x w.
Proof. intros ->. reflexivity. Qed.

Lemma bind_lift_raised {A B : Type} (r : exn + A) (e : exn) (k : A -> io B) (w : world) :
  r = inl e -> bind (lift r) k w = (inl e, w).
Proof. intros ->. reflexivity. Qed.

Lemma remove_only_name (name : string) : remove_name name [name] = [].
Proof.
  unfold remove_name. rewrite filter_cons. case_decide; [congruence | reflexivity].
Qed.

Lemma add_name_nil (name : string) : add_name name [] = [name].
Proof.
  unfold add_name. case_decide as H; [|reflexivity].
  apply elem_of_nil in H. contradiction.
Qed.

Lemma alter_only_name (ds : gmap string (list string)) (d name : string) :
  ds !! d = Some [name] -> alter (remove_name name) d ds = <[d := []]> ds.
Proof.
  intros H. apply map_eq. intros k. destruct (decide (k = d)) as [->|Hk].
  - rewrite lookup_alter_eq, lookup_insert_eq, H. simpl. rewrite remove_only_name. reflexivity.
  - rewrite lookup_alter_ne, lookup_insert_ne by congruence. reflexivity.
Qed.

Variables (path : string) (w : world) (name : string).

Hypothesis Hdir : dirs w !! entry_path path = Some [name].

(** The count of the listing is wrong: the first gate. *)
Lemma append_rootwait_count (names : list string) :
  fault SysListdir = None ->
  dirs w !! entry_path path = Some names -> length names <> 1 ->
  append_rootwait fault path w
  = (inl (Exception ("Unable to find specific entry file in " +:+ entry_path path
                     +:+ ", found " +:+ str_list names +:+ " instead")),
     logged SysListdir (entry_path path) w).
Proof.
  intros Hf Hd Hlen. unfold append_rootwait. cbv zeta. fold (entry_path path).
  erewrite bind_value by (apply os_listdir_ok; [exact Hf | exact Hd]).
  destruct (Nat.eqb_spec (length names) 1) as [E|_]; [contradiction|].
  reflexivity.
Qed.

Variable content : string.

Hypothesis Hfile : files w !! file_full_path path name = Some content.
Hypothesis Hlist : fault SysListdir = None.
Hypothesis Hopen : fault SysOpenRead = None.
Hypothesis Hread : fault SysRead = None.

(** The world once the entry has been read. *)
Let read_world : world :=
  World (dirs w) (files w)
        (io_log w ++ [(SysListdir, entry_path path);
                      (SysOpenRead, file_full_path path name);
                      (SysRead, file_full_path path name)]).

Lemma logged_read_world :
  logged SysRead (file_full_path path name)
    (logged SysOpenRead (file_full_path path name)
       (logged SysListdir (entry_path path) w)) = read_world.
Proof.
  unfold logged, read_world. cbn [dirs files io_log].
  rewrite <- !List.app_assoc. reflexivity.
Qed.

(** The entry is empty: indexing its last line raises. *)
Lemma append_rootwait_empty :
  readlines content = [] ->
  append_rootwait fault path w
  = (inl (IndexError "list index out of range"), read_world).
Proof.
  intros Hlines. unfold append_rootwait. cbv zeta. fold (entry_path path).
  erewrite bind_value by (apply os_listdir_ok; [exact Hlist | exact Hdir]).
  cbn [length Nat.eqb negb].
  erewrite bind_lift_value by reflexivity.
  fold (file_full_path path name).
  erewrite bind_value by (apply open_readlines_ok; [exact Hopen | exact Hread | exact Hfile]).
  rewrite Hlines, logged_read_world.
  erewrite bind_lift_raised by reflexivity. reflexivity.
Qed.

Variables (pre : list string) (last : string).

Hypothesis Hlines : readlines content = pre ++ [last].

(** The last line is not an options line: the second gate. *)
Lemma append_rootwait_prefix :
  startswith last "options " = false ->
  append_rootwait fault path w
  = (inl (Exception "Last line of entry file is not the kernel commandline options"),
     read_world).
Proof.
  intros Hopt. unfold append_rootwait. cbv zeta. fold (entry_path path).
  erewrite bind_value by (apply os_listdir_ok; [exact Hlist | exact Hdir]).
  cbn [length Nat.eqb negb].
  erewrite bind_lift_value by reflexivity.
  fold (file_full_path path name).
  erewrite bind_value by (apply open_readlines_ok; [exact Hopen | exact Hread | exact Hfile]).
  rewrite Hlines, logged_read_world.
  erewrite bind_lift_value by apply getitem_last.
  rewrite Hopt. reflexivity.
Qed.

Hypothesis Hopt : startswith last "options " = true.

(** A name in a listing holds no slash: [os.listdir] returns the names of
    the entries of one directory. *)
Hypothesis Hname : contains SLASH name = false.
Hypothesis Hunlink : fault SysUnlink = None.

(** Both gates passed and the entry removed: what is left is the write. *)
Lemma append_rootwait_unlinked :
  append_rootwait fault path w
  = open_writelines fault (file_full_path path name)
      (pre ++ [slice_to_minus1 last +:+ " rootwait" +:+ nl])
      (World (<[entry_path path := []]> (dirs w))
             (delete (file_full_path path name) (files w))
             (io_log w ++ [(SysListdir, entry_path path);
                           (SysOpenRead, file_full_path path name);
                           (SysRead, file_full_path path name);
                           (SysUnlink, file_full_path path name)])).
Proof.
  unfold append_rootwait. cbv zeta. fold (entry_path path).
  erewrite bind_value by (apply os_listdir_ok; [exact Hlist | exact Hdir]).
  cbn [length Nat.eqb negb].
  erewrite bind_lift_value by reflexivity.
  fold (file_full_path path name).
  erewrite bind_value by (apply open_readlines_ok; [exact Hopen | exact Hread | exact Hfile]).
  rewrite Hlines, logged_read_world.
  erewrite bind_lift_value by apply getitem_last.
  rewrite Hopt. cbn [negb].
  erewrite bind_lift_value by apply setitem_last.
  erewrite bind_value
    by (eapply os_unlink_ok; [exact Hunlink | exact Hfile | apply path_split_entry, Hname]).
  unfold read_world. cbn [dirs files io_log].
  rewrite (alter_only_name _ _ _ Hdir), <- List.app_assoc. reflexivity.
Qed.

(** The text the script leaves in the entry. *)
Let rewritten : string :=
  join pre +:+ slice_to_minus1 last +:+ " rootwait" +:+ nl.

Let full_log : list (syscall * string) :=
  io_log w ++ [(SysListdir, entry_path path);
               (SysOpenRead, file_full_path path name);
               (SysRead, file_full_path path name);
               (SysUnlink, file_full_path path name);
               (SysOpenWrite, file_full_path path name);
               (SysWrite, file_full_path path name)].

Lemma writelines_patched :
  writelines (pre ++ [slice_to_minus1 last +:+ " rootwait" +:+ nl]) = rewritten.
Proof. unfold writelines, rewritten. rewrite join_app, join_singleton. reflexivity. Qed.

(** No call fails: the entry is rewritten and nothing else changes. *)
Lemma append_rootwait_ok :
  fault SysOpenWrite = None -> fault SysWrite = None ->
  append_rootwait fault path w
  = (inr tt, World (dirs w) (<[file_full_path path name := rewritten]> (files w)) full_log).
Proof.
  intros Hf1 Hf2. rewrite append_rootwait_unlinked.
  erewrite open_writelines_ok;
    [| exact Hf1 | exact Hf2 | apply path_split_entry, Hname
     | cbn [dirs]; apply lookup_insert_eq ].
  cbn [dirs files io_log].
  rewrite add_name_nil, insert_insert_eq, (insert_id _ _ _ Hdir).
  rewrite insert_insert_eq, insert_delete_eq, writelines_patched.
  rewrite <- List.app_assoc. reflexivity.
Qed.

(** The open for writing fails: the entry stays removed. *)
Lemma append_rootwait_open_fails (n : N) (m : string) :
  fault SysOpenWrite = Some (n, m) ->
  append_rootwait fault path w
  = (inl (OSError n m (file_full_path path name)),
     World (<[entry_path path := []]> (dirs w))
           (delete (file_full_path path name) (files w))
           (io_log w ++ [(SysListdir, entry_path path);
                         (SysOpenRead, file_full_path path name);
                         (SysRead, file_full_path path name);
                         (SysUnlink, file_full_path path name);
                         (SysOpenWrite, file_full_path path name)])).
Proof.
  intros Hf. rewrite append_rootwait_unlinked.
  rewrite (open_writelines_fault_open _ _ _ _ _ _ Hf).
  unfold logged. cbn [dirs files io_log]. rewrite <- List.app_assoc. reflexivity.
Qed.

(** The open succeeds and the write fails: the entry is there, with the
    part of the new text that had reached it. *)
Lemma append_rootwait_write_fails (n : N) (m : string) :
  fault SysOpenWrite = None -> fault SysWrite = Some (n, m) ->
  append_rootwait fault path w
  = (inl (OSError n m (file_full_path path name)),
     World (dirs w)
           (<[file_full_path path name := str_take (short_write fault) rewritten]>
              (files w))
           full_log).
Proof.
  intros Hf1 Hf2. rewrite append_rootwait_unlinked.
  erewrite open_writelines_fault_write;
    [| exact Hf1 | exact Hf2 | apply path_split_entry, Hname
     | cbn [dirs]; apply lookup_insert_eq ].
  cbn [dirs files io_log].
  rewrite add_name_nil, insert_insert_eq, (insert_id _ _ _ Hdir).
  rewrite !insert_insert_eq, insert_delete_eq, writelines_patched.
  rewrite <- List.app_assoc. reflexivity.
Qed.

End RunFacts.

(** ** [repr] can be read back *)

Section ReprFacts.

Lemma unrepr_repr_char_squote (c : ascii) (u : string) :
  unrepr_char SQUOTE (repr_char SQUOTE c +:+ u) = Some (c, u).
Proof. destruct c as [[] [] [] [] [] [] [] []]; reflexivity. Qed.

Lemma unrepr_repr_char_dquote (c : ascii) (u : string) :
  unrepr_char DQUOTE (repr_char DQUOTE c +:+ u) = Some (c, u).
Proof. destruct c as [[] [] [] [] [] [] [] []]; reflexivity. Qed.

Lemma unrepr_repr_char (q c : ascii) (u : string) :
  q = SQUOTE \/ q = DQUOTE ->
  unrepr_char q (repr_char q c +:+ u) = Some (c, u).
Proof.
  intros [-> | ->]; [apply unrepr_repr_char_squote | apply unrepr_repr_char_dquote].
Qed.

Lemma unrepr_closing_quote (q : ascii) (u : string) : unrepr_char q (String q u) = None.
Proof. unfold unrepr_char. rewrite Ascii.eqb_refl. reflexivity. Qed.

Lemma repr_quote_cases (s : string) : repr_quote s = SQUOTE \/ repr_quote s = DQUOTE.
Proof.
  unfold repr_quote. destruct (contains SQUOTE s && negb (contains DQUOTE s)); auto.
Qed.

(** The body of a quoted string ends at its closing quote and nowhere
    before. *)
Lemma repr_body_inj (q : ascii) :
  q = SQUOTE \/ q = DQUOTE ->
  forall a b t1 t2,
    repr_body q a +:+ String q t1 = repr_body q b +:+ String q t2 ->
    a = b /\ t1 = t2.
Proof.
  intros Hq. induction a as [|c a IH]; intros b t1 t2 H.
  - destruct b as [|d b].
    + injection H as ->. split; reflexivity.
    + apply (f_equal (unrepr_char q)) in H.
      change (unrepr_char q (String q t1)
              = unrepr_char q ((repr_char q d +:+ repr_body q b) +:+ String q t2)) in H.
      rewrite str_app_assoc in H.
      rewrite unrepr_closing_quote, (unrepr_repr_char q d _ Hq) in H. discriminate.
  - destruct b as [|d b].
    + apply (f_equal (unrepr_char q)) in H.
      change (unrepr_char q ((repr_char q c +:+ repr_body q a) +:+ String q t1)
              = unrepr_char q (String q t2)) in H.
      rewrite str_app_assoc in H.
      rewrite unrepr_closing_quote, (unrepr_repr_char q c _ Hq) in H. discriminate.
    + apply (f_equal (unrepr_char q)) in H.
      cbn [repr_body] in H. rewrite !str_app_assoc in H.
      rewrite (unrepr_repr_char q c _ Hq), (unrepr_repr_char q d _ Hq) in H.
      injection H as -> H. destruct (IH _ _ _ H) as [-> ->]. split; reflexivity.
Qed.

(** [repr] is a prefix code: a text starts with the [repr] of one string
    at most. *)
Lemma repr_prefix_code (a b t1 t2 : string) :
  repr a +:+ t1 = repr b +:+ t2 -> a = b /\ t1 = t2.
Proof.
  unfold repr. cbv zeta. rewrite !str_app_cons, !str_app_assoc.
  intros H. injection H as Hq H. rewrite <- Hq in H.
  exact (repr_body_inj _ (repr_quote_cases a) _ _ _ _ H).
Qed.

Lemma repr_head (a : string) : exists q u, (q = SQUOTE \/ q = DQUOTE) /\ repr a = String q u.
Proof.
  exists (repr_quote a), (repr_body (repr_quote a) a +:+ chr (repr_quote a)).
  split; [apply repr_quote_cases | reflexivity].
Qed.

Lemma join_with_cons2 (sep x y : string) (l : list string) :
  join_with sep (x :: y :: l) = x +:+ sep +:+ join_with sep (y :: l).
Proof. reflexivity. Qed.

Lemma reprs_nil (t : string) :
  join_with ", " (map repr []) +:+ "]" +:+ t = String "]" t.
Proof. reflexivity. Qed.

Lemma reprs_cons (a : string) (l : list string) (t : string) :
  join_with ", " (map repr (a :: l)) +:+ "]" +:+ t
  = repr a +:+ match l with
               | [] => String "]" t
               | _ => String "," (String " " (join_with ", " (map repr l) +:+ "]" +:+ t))
               end.
Proof.
  destruct l as [|b l]; cbn [map].
  - reflexivity.
  - rewrite join_with_cons2, !str_app_assoc. reflexivity.
Qed.

Lemma repr_not_bracket (a t u : string) : String "]" t <> repr a +:+ u.
Proof.
  destruct (repr_head a) as (q & v & Hq & ->). rewrite str_app_cons.
  intros H. injection H as H _. destruct Hq as [-> | ->]; discriminate H.
Qed.

(** The elements of a rendered list can be told apart. *)
Lemma reprs_inj (l1 : list string) :
  forall (l2 : list string) (t1 t2 : string),
    join_with ", " (map repr l1) +:+ "]" +:+ t1
    = join_with ", " (map repr l2) +:+ "]" +:+ t2 ->
    l1 = l2 /\ t1 = t2.
Proof.
  induction l1 as [|a l1 IH]; intros l2 t1 t2 H.
  - destruct l2 as [|b l2].
    + rewrite !reprs_nil in H. injection H as ->. split; reflexivity.
    + rewrite reprs_nil, reprs_cons in H. apply repr_not_bracket in H. contradiction.
  - destruct l2 as [|b l2].
    + rewrite reprs_nil, reprs_cons in H. symmetry in H.
      apply repr_not_bracket in H. contradiction.
    + rewrite !reprs_cons in H. apply repr_prefix_code in H as [-> H].
      destruct l1 as [|a2 l1]; destruct l2 as [|b2 l2]; try discriminate H.
      * injection H as ->. split; reflexivity.
      * injection H as H. destruct (IH (b2 :: l2) t1 t2 H) as [-> ->].
        split; reflexivity.
Qed.

(** [str] of a list of strings is a prefix code too: the list can be
    read back from any text that starts with it. *)
Lemma str_list_inj (l1 l2 : list string) (t1 t2 : string) :
  str_list l1 +:+ t1 = str_list l2 +:+ t2 -> l1 = l2 /\ t1 = t2.
Proof.
  unfold str_list. rewrite !str_app_assoc. intros H.
  injection H as H. exact (reprs_inj _ _ _ _ H).
Qed.

Lemma repr_char_plain (c : ascii) : plain_char c = true -> repr_char SQUOTE c = chr c.
Proof.
  destruct c as [[] [] [] [] [] [] [] []]; intros H;
    first [reflexivity | (vm_compute in H; discriminate H)].
Qed.

Lemma plain_char_not_squote (c : ascii) : plain_char c = true -> Ascii.eqb SQUOTE c = false.
Proof.
  unfold plain_char. intros H. apply andb_true_iff in H as [H _].
  apply andb_true_iff in H as [_ H]. apply negb_true_iff in H.
  rewrite Ascii.eqb_sym. exact H.
Qed.

(** A plain name is written as it is, between single quotes. *)
Lemma repr_plain (n : string) : plain_name n = true -> repr n = quoted n.
Proof.
  intros H.
  assert (Hq : contains SQUOTE n = false).
  { induction n as [|c n IH]; [reflexivity|]. cbn [plain_name] in H.
    apply andb_true_iff in H as [Hc Hn]. cbn [contains].
    rewrite (plain_char_not_squote c Hc), (IH Hn). reflexivity. }
  assert (Hb : repr_body SQUOTE n = n).
  { induction n as [|c n IH]; [reflexivity|]. cbn [plain_name contains] in *.
    apply andb_true_iff in H as [Hc Hn]. apply orb_false_iff in Hq as [_ Hq].
    cbn [repr_body]. rewrite (repr_char_plain c Hc), (IH Hn Hq). reflexivity. }
  unfold repr, repr_quote. rewrite Hq. cbn [andb]. cbv zeta. rewrite Hb. reflexivity.
Qed.

Lemma str_list_plain (names : list string) :
  forallb plain_name names = true ->
  str_list names = "[" +:+ join_with ", " (map quoted names) +:+ "]".
Proof.
  intros H. unfold str_list. do 3 f_equal.
  induction names as [|n names IH]; [reflexivity|].
  cbn [forallb map] in *. apply andb_true_iff in H as [Hn Hs].
  rewrite (repr_plain n Hn), (IH Hs). reflexivity.
Qed.

End ReprFacts.

(** ** The claims *)

Lemma strip_trailing_newline_snoc (body : string) :
  strip_trailing_newline (body +:+ nl) = body.
Proof.
  induction body as [|c body IH]; [reflexivity|].
  rewrite str_app_cons. destruct (body +:+ nl) as [|d u] eqn:E.
  - destruct body; discriminate.
  - change (String c (strip_trailing_newline (String d u)) = String c body).
    rewrite IH. reflexivity.
Qed.

(** On a last line that ends with a newline the code computes the line of
    the specification. *)
Lemma code_options_line_terminated (body : string) :
  code_options_line (body +:+ nl) = spec_options_line (body +:+ nl).
Proof.
  unfold code_options_line, spec_options_line.
  rewrite strip_trailing_newline_snoc. unfold nl at 1. rewrite slice_snoc. reflexivity.
Qed.

(** C1, at a last line that no newline closes: the entry's last line
    starts with [options ] and the run succeeds, but the new last line is
    not the old one plus [ rootwait] and a newline; the last character of
    the kernel command line is gone ([root=/dev/sda1] became
    [root=/dev/sda]). *)
Theorem C1_unterminated_last_line_loses_character :
  readlines unterminated_content
  = ["title Test" +:+ nl; "linux /vmlinuz" +:+ nl; "options root=/dev/sda1"] /\
  startswith "options root=/dev/sda1" "options " = true /\
  (exists w',
      append_rootwait no_fault "/img" unterminated_world = (inr tt, w') /\
      readlines <$> files w' !! file_full_path "/img" "entry.conf"
      = Some ["title Test" +:+ nl; "linux /vmlinuz" +:+ nl;
              "options root=/dev/sda rootwait" +:+ nl]) /\
  spec_options_line "options root=/dev/sda1" = "options root=/dev/sda1 rootwait" +:+ nl /\
  code_options_line "options root=/dev/sda1" <> spec_options_line "options root=/dev/sda1".
Proof.
  split; [reflexivity|]. split; [reflexivity|]. split; [|split].
  - eexists. split; [vm_compute; reflexivity|]. vm_compute. reflexivity.
  - reflexivity.
  - vm_compute. discriminate.
Qed.

(** A run that succeeds found a listing of one name. *)
Lemma append_rootwait_success_listing (fault : fault_plan)
    (path : string) (w w' : world) :
  append_rootwait fault path w = (inr tt, w') ->
  exists name w1, os_listdir fault (entry_path path) w = (inr [name], w1).
Proof.
  intros H. unfold append_rootwait in H. cbv zeta in H. fold (entry_path path) in H.
  unfold bind at 1 in H.
  destruct (os_listdir fault (entry_path path) w) as [[e|names] w1]; [discriminate|].
  destruct names as [|name [|n2 names]]; cbn [length Nat.eqb negb] in H;
    try (unfold raise in H; discriminate).
  exists name, w1. reflexivity.
Qed.

(** C2: [append_rootwait] succeeds only if the listing of the entries
    directory holds exactly one name; on a listing of zero names or of two
    or more it raises the exception whose message is made of the path of
    the directory and of the listing.  The message reports the listing:
    for one directory, two listings that differ give two messages that
    differ, and names made of printable characters without quote or
    backslash stand in it as they are, each between single quotes, in the
    order of the listing. *)
Theorem C2_exactly_one_entry (fault : fault_plan)
    (path : string) (w : world) :
  (forall w', append_rootwait fault path w = (inr tt, w') ->
     exists name w1, os_listdir fault (entry_path path) w = (inr [name], w1)) /\
  (forall names w1,
     os_listdir fault (entry_path path) w = (inr names, w1) ->
     length names <> 1 ->
     append_rootwait fault path w
     = (inl (Exception ("Unable to find specific entry file in " +:+ entry_path path
                        +:+ ", found " +:+ str_list names +:+ " instead")), w1)) /\
  (forall names names',
     "Unable to find specific entry file in " +:+ entry_path path
       +:+ ", found " +:+ str_list names +:+ " instead"
     = "Unable to find specific entry file in " +:+ entry_path path
       +:+ ", found " +:+ str_list names' +:+ " instead" ->
     names = names') /\
  (forall names,
     forallb plain_name names = true ->
     "Unable to find specific entry file in " +:+ entry_path path
       +:+ ", found " +:+ str_list names +:+ " instead"
     = "Unable to find specific entry file in " +:+ entry_path path
       +:+ ", found [" +:+ join_with ", " (map quoted names) +:+ "] instead").
Proof.
  split; [|split; [|split]].
  - intros w'. apply append_rootwait_success_listing.
  - intros names w1 E Hlen. unfold append_rootwait. cbv zeta. fold (entry_path path).
    erewrite bind_value by exact E.
    destruct (Nat.eqb_spec (length names) 1) as [E1|_]; [contradiction|].
    reflexivity.
  - intros names names' H.
    do 3 apply (inj (String.append _)) in H.
    exact (proj1 (str_list_inj _ _ _ _ H)).
  - intros names H. do 2 f_equal.
    rewrite (str_list_plain names H), !str_app_assoc. reflexivity.
Qed.

Lemma C2_exactly_one_entry_witness :
  (exists name w1,
      os_listdir no_fault (entry_path "/img") scenario_world = (inr [name], w1)) /\
  append_rootwait no_fault "/img" two_entries_world
  = (inl (Exception
            "Unable to find specific entry file in /img/boot/loader/entries/, found ['a.conf', 'b.conf'] instead"),
     logged SysListdir (entry_path "/img") two_entries_world) /\
  append_rootwait no_fault "/img" no_entry_world
  = (inl (Exception
            "Unable to find specific entry file in /img/boot/loader/entries/, found [] instead"),
     logged SysListdir (entry_path "/img") no_entry_world) /\
  "Unable to find specific entry file in " +:+ entry_path "/img"
    +:+ ", found " +:+ str_list ["a.conf"; "b.conf"] +:+ " instead"
  = "Unable to find specific entry file in " +:+ entry_path "/img"
    +:+ ", found [" +:+ join_with ", " (map quoted ["a.conf"; "b.conf"]) +:+ "] instead".
Proof.
  split; [|split; [|split]].
  - eapply (proj1 (C2_exactly_one_entry no_fault "/img" scenario_world)).
    vm_compute. reflexivity.
  - apply (proj1 (proj2 (C2_exactly_one_entry no_fault "/img" two_entries_world))
             ["a.conf"; "b.conf"]); [reflexivity | simpl; lia].
  - apply (proj1 (proj2 (C2_exactly_one_entry no_fault "/img" no_entry_world)) []);
      [reflexivity | simpl; lia].
  - apply (proj2 (proj2 (proj2 (C2_exactly_one_entry no_fault "/img" two_entries_world)))
             ["a.conf"; "b.conf"]). reflexivity.
Defined.

(** C3: when the last line of the entry does not start with [options ],
    [append_rootwait] raises, whatever the platform does, and leaves the
    file system as it was: the calls it made are reads, none deletes or
    writes.  When the platform fails no call, the exception is the one of
    the second gate. *)
Theorem C3_bad_prefix_leaves_file (fault : fault_plan)
    (path : string) (w : world) (name content : string)
    (pre : list string) (last : string) :
  dirs w !! entry_path path = Some [name] ->
  files w !! file_full_path path name = Some content ->
  readlines content = pre ++ [last] ->
  startswith last "options " = false ->
  exists e w',
    append_rootwait fault path w = (inl e, w') /\
    dirs w' = dirs w /\ files w' = files w /\
    (exists evs, io_log w' = io_log w ++ evs /\
                 Forall (fun ev => mutates (fst ev) = false) evs) /\
    (fault SysListdir = None -> fault SysOpenRead = None -> fault SysRead = None ->
     e = Exception prefix_message).
Proof.
  intros Hdir Hfile Hlines Hopt.
  destruct (fault SysListdir) as [[n m]|] eqn:F1.
  { eexists _, _. split.
    - unfold append_rootwait. cbv zeta.
      erewrite bind_raised by (apply os_listdir_fault; exact F1). reflexivity.
    - repeat split; [|discriminate].
      eexists. split; [reflexivity|]. repeat constructor. }
  destruct (fault SysOpenRead) as [[n m]|] eqn:F2.
  { eexists _, _. split.
    - unfold append_rootwait. cbv zeta. fold (entry_path path).
      erewrite bind_value by (apply os_listdir_ok; [exact F1 | exact Hdir]).
      cbn [length Nat.eqb negb]. erewrite bind_lift_value by reflexivity.
      erewrite bind_raised by (apply open_readlines_fault_open; exact F2).
      reflexivity.
    - repeat split; [|discriminate].
      exists [(SysListdir, entry_path path); (SysOpenRead, entry_path path +:+ name)].
      split; [|repeat constructor].
      unfold logged. cbn [io_log]. rewrite <- List.app_assoc. reflexivity. }
  destruct (fault SysRead) as [[n m]|] eqn:F3.
  { eexists _, _. split.
    - unfold append_rootwait. cbv zeta. fold (entry_path path).
      erewrite bind_value by (apply os_listdir_ok; [exact F1 | exact Hdir]).
      cbn [length Nat.eqb negb]. erewrite bind_lift_value by reflexivity.
      erewrite bind_raised
        by (eapply open_readlines_fault_read; [exact F2 | exact F3 | exact Hfile]).
      reflexivity.
    - repeat split; [|discriminate].
      exists [(SysListdir, entry_path path); (SysOpenRead, entry_path path +:+ name);
              (SysRead, entry_path path +:+ name)].
      split; [|repeat constructor].
      unfold logged. cbn [io_log]. rewrite <- !List.app_assoc. reflexivity. }
  eexists _, _. split.
  - eapply append_rootwait_prefix; eassumption.
  - repeat split. eexists. split; [reflexivity|]. repeat constructor.
Qed.

Lemma C3_bad_prefix_leaves_file_witness :
  exists e w',
    append_rootwait no_fault "/img" no_options_world = (inl e, w') /\
    dirs w' = dirs no_options_world /\ files w' = files no_options_world /\
    (exists evs, io_log w' = io_log no_options_world ++ evs /\
                 Forall (fun ev => mutates (fst ev) = false) evs) /\
    (no_fault SysListdir = None -> no_fault SysOpenRead = None ->
     no_fault SysRead = None -> e = Exception prefix_message).
Proof.
  apply (C3_bad_prefix_leaves_file no_fault "/img" no_options_world "entry.conf"
           ("title Test" +:+ nl +:+ "linux /vmlinuz" +:+ nl)
           ["title Test" +:+ nl] ("linux /vmlinuz" +:+ nl));
    reflexivity.
Defined.

(** C9: when the one entry is an empty file, [append_rootwait] fails on
    the index [-1] of an empty list of lines: the exception is the
    [IndexError] of list indexing, not one of the two exceptions of the
    gates, and the file system is as it was. *)
Theorem C9_empty_entry_index_error (fault : fault_plan)
    (path : string) (w : world) (name : string) :
  dirs w !! entry_path path = Some [name] ->
  files w !! file_full_path path name = Some EmptyString ->
  fault SysListdir = None -> fault SysOpenRead = None -> fault SysRead = None ->
  readlines EmptyString = [] /\
  getitem (readlines EmptyString) (-1) = inl (IndexError "list index out of range") /\
  exists w',
    append_rootwait fault path w = (inl (IndexError "list index out of range"), w') /\
    (forall msg, IndexError "list index out of range" <> Exception msg) /\
    dirs w' = dirs w /\ files w' = files w /\
    (exists evs, io_log w' = io_log w ++ evs /\
                 Forall (fun ev => mutates (fst ev) = false) evs).
Proof.
  intros Hdir Hfile F1 F2 F3. split; [reflexivity|]. split; [reflexivity|].
  eexists. split.
  - eapply append_rootwait_empty; try eassumption. reflexivity.
  - split; [discriminate|]. repeat split.
    eexists. split; [reflexivity|]. repeat constructor.
Qed.

Lemma C9_empty_entry_index_error_witness :
  readlines EmptyString = [] /\
  getitem (readlines EmptyString) (-1) = inl (IndexError "list index out of range") /\
  exists w',
    append_rootwait no_fault "/img" empty_entry_world
    = (inl (IndexError "list index out of range"), w') /\
    (forall msg, IndexError "list index out of range" <> Exception msg) /\
    dirs w' = dirs empty_entry_world /\ files w' = files empty_entry_world /\
    (exists evs, io_log w' = io_log empty_entry_world ++ evs /\
                 Forall (fun ev => mutates (fst ev) = false) evs).
Proof.
  apply (C9_empty_entry_index_error no_fault "/img" empty_entry_world "entry.conf");
    reflexivity.
Defined.

(** A text always differs from itself with its last character replaced by
    [ rootwait] and a newline. *)
Lemma code_options_line_differs (old : string) : code_options_line old <> old.
Proof.
  unfold code_options_line. intros H.
  assert (H' : slice_to_minus1 ((slice_to_minus1 old +:+ " rootwait") +:+ nl)
               = slice_to_minus1 old) by (rewrite str_app_assoc, H; reflexivity).
  unfold nl in H'. rewrite slice_snoc in H'.
  rewrite <- (str_app_nil_r (slice_to_minus1 old)) in H' at 2.
  apply (inj (String.append _)) in H'. discriminate.
Qed.

Lemma slice_nl (body : string) : slice_to_minus1 (body +:+ nl) = body.
Proof. apply slice_snoc. Qed.

(** C10: an entry of one line that starts with [options ] and ends with a
    newline is rewritten as one line, the old one with [ rootwait] before
    its newline. *)
Theorem C10_single_line_entry (path : string) (w : world) (name content body : string) :
  dirs w !! entry_path path = Some [name] ->
  contains SLASH name = false ->
  files w !! file_full_path path name = Some content ->
  readlines content = [body +:+ nl] ->
  startswith (body +:+ nl) "options " = true ->
  exists w',
    append_rootwait no_fault path w = (inr tt, w') /\
    files w' !! file_full_path path name = Some (body +:+ " rootwait" +:+ nl) /\
    readlines (body +:+ " rootwait" +:+ nl) = [body +:+ " rootwait" +:+ nl].
Proof.
  intros Hdir Hname Hfile Hlines Hopt.
  eexists. split; [|split].
  - eapply (append_rootwait_ok no_fault path w name Hdir content Hfile
              eq_refl eq_refl eq_refl [] (body +:+ nl) Hlines Hopt Hname);
      reflexivity.
  - cbn [files]. rewrite lookup_insert_eq. f_equal.
    rewrite slice_nl. reflexivity.
  - pose proof (readlines_rewritten content [] (body +:+ nl) " rootwait"
                  Hlines eq_refl eq_refl) as H.
    rewrite !slice_nl in H. exact H.
Qed.

Lemma C10_single_line_entry_witness :
  exists w',
    append_rootwait no_fault "/img" one_line_world = (inr tt, w') /\
    files w' !! file_full_path "/img" "entry.conf"
    = Some ("options root=/dev/sda1" +:+ " rootwait" +:+ nl) /\
    readlines ("options root=/dev/sda1" +:+ " rootwait" +:+ nl)
    = ["options root=/dev/sda1" +:+ " rootwait" +:+ nl].
Proof.
  apply (C10_single_line_entry "/img" one_line_world "entry.conf"
           ("options root=/dev/sda1" +:+ nl) "options root=/dev/sda1");
    reflexivity.
Defined.

(** C8: with root [/img] and the one entry [entry.conf] holding the three
    lines of the scenario, [append_rootwait] succeeds and the entry then
    holds the same three lines with [ rootwait] at the end of the last. *)
Theorem C8_scenario (w : world) :
  dirs w !! "/img/boot/loader/entries/" = Some ["entry.conf"] ->
  files w !! "/img/boot/loader/entries/entry.conf"
  = Some ("title Test" +:+ nl +:+ "linux /vmlinuz" +:+ nl
          +:+ "options root=/dev/sda1" +:+ nl) ->
  exists w',
    append_rootwait no_fault "/img" w = (inr tt, w') /\
    files w' !! "/img/boot/loader/entries/entry.conf"
    = Some ("title Test" +:+ nl +:+ "linux /vmlinuz" +:+ nl
            +:+ "options root=/dev/sda1 rootwait" +:+ nl) /\
    dirs w' = dirs w /\
    (forall p, p <> "/img/boot/loader/entries/entry.conf" -> files w' !! p = files w !! p).
Proof.
  intros Hdir Hfile.
  eexists. split; [|split; [|split]].
  - eapply (append_rootwait_ok no_fault "/img" w "entry.conf" Hdir _ Hfile
              eq_refl eq_refl eq_refl
              ["title Test" +:+ nl; "linux /vmlinuz" +:+ nl]
              ("options root=/dev/sda1" +:+ nl)); reflexivity.
  - cbn [files]. apply lookup_insert_eq.
  - reflexivity.
  - intros p Hp. cbn [files]. apply lookup_insert_ne.
    intros E. apply Hp. symmetry. exact E.
Qed.

Lemma C8_scenario_witness :
  exists w',
    append_rootwait no_fault "/img" scenario_world = (inr tt, w') /\
    files w' !! "/img/boot/loader/entries/entry.conf"
    = Some ("title Test" +:+ nl +:+ "linux /vmlinuz" +:+ nl
            +:+ "options root=/dev/sda1 rootwait" +:+ nl) /\
    dirs w' = dirs scenario_world /\
    (forall p, p <> "/img/boot/loader/entries/entry.conf" ->
               files w' !! p = files scenario_world !! p).
Proof.
  apply (C8_scenario scenario_world); reflexivity.
Defined.

(** C5: [append_rootwait] is not idempotent.  On an entry whose last line
    is [options console=ttyS0] with its newline, a first run leaves the
    last line [options console=ttyS0 rootwait], and a second run on what
    the first left gives [options console=ttyS0 rootwait rootwait]: a
    [rootwait] already there is not looked for. *)
Theorem C5_not_idempotent (path : string) (w : world) (name content : string)
    (pre : list string) :
  dirs w !! entry_path path = Some [name] ->
  contains SLASH name = false ->
  files w !! file_full_path path name = Some content ->
  readlines content = pre ++ ["options console=ttyS0" +:+ nl] ->
  exists w1 w2 c1 c2,
    append_rootwait no_fault path w = (inr tt, w1) /\
    files w1 !! file_full_path path name = Some c1 /\
    readlines c1 = pre ++ ["options console=ttyS0 rootwait" +:+ nl] /\
    append_rootwait no_fault path w1 = (inr tt, w2) /\
    files w2 !! file_full_path path name = Some c2 /\
    readlines c2 = pre ++ ["options console=ttyS0 rootwait rootwait" +:+ nl].
Proof.
  intros Hdir Hname Hfile Hlines.
  pose proof (append_rootwait_ok no_fault path w name Hdir content Hfile
                eq_refl eq_refl eq_refl pre _ Hlines eq_refl Hname eq_refl
                eq_refl eq_refl) as Hrun1.
  pose proof (readlines_rewritten content pre _ " rootwait" Hlines eq_refl eq_refl)
    as Hlines1.
  change (slice_to_minus1 ("options console=ttyS0" +:+ nl) +:+ " rootwait" +:+ nl)
    with ("options console=ttyS0 rootwait" +:+ nl) in Hrun1, Hlines1.
  match type of Hrun1 with _ = (_, ?x) => set (w1 := x) in * end.
  assert (Hfile1 : files w1 !! file_full_path path name
                   = Some (join pre +:+ "options console=ttyS0 rootwait" +:+ nl))
    by apply lookup_insert_eq.
  pose proof (append_rootwait_ok no_fault path w1 name Hdir _ Hfile1
                eq_refl eq_refl eq_refl pre _ Hlines1 eq_refl Hname eq_refl
                eq_refl eq_refl) as Hrun2.
  pose proof (readlines_rewritten _ pre _ " rootwait" Hlines1 eq_refl eq_refl)
    as Hlines2.
  change (slice_to_minus1 ("options console=ttyS0 rootwait" +:+ nl) +:+ " rootwait" +:+ nl)
    with ("options console=ttyS0 rootwait rootwait" +:+ nl) in Hrun2, Hlines2.
  eexists w1, _, _, _.
  split; [exact Hrun1|]. split; [exact Hfile1|]. split; [exact Hlines1|].
  split; [exact Hrun2|]. split; [apply lookup_insert_eq | exact Hlines2].
Qed.

Lemma C5_not_idempotent_witness :
  exists w1 w2 c1 c2,
    append_rootwait no_fault "/img" console_world = (inr tt, w1) /\
    files w1 !! file_full_path "/img" "entry.conf" = Some c1 /\
    readlines c1 = ["title Test" +:+ nl] ++ ["options console=ttyS0 rootwait" +:+ nl] /\
    append_rootwait no_fault "/img" w1 = (inr tt, w2) /\
    files w2 !! file_full_path "/img" "entry.conf" = Some c2 /\
    readlines c2
    = ["title Test" +:+ nl] ++ ["options console=ttyS0 rootwait rootwait" +:+ nl].
Proof.
  apply (C5_not_idempotent "/img" console_world "entry.conf"
           ("title Test" +:+ nl +:+ "options console=ttyS0" +:+ nl)
           ["title Test" +:+ nl]); reflexivity.
Defined.











(** C4 as stated fails on an entry whose lines end with carriage return
    and line feed: the entry has three lines and the run succeeds, but the
    first line of the rewritten file ends with a line feed alone, where
    the first line of the original ended with carriage return and line
    feed. *)
Lemma C4_crlf_terminators_counterexample :
  exists w' after,
    append_rootwait no_fault "/img" crlf_world = (inr tt, w') /\
    files w' !! file_full_path "/img" "entry.conf" = Some after /\
    length (readlines crlf_content) = 3 /\
    raw_lines crlf_content !! 0 = Some ("title Test" +:+ chr CR +:+ nl) /\
    raw_lines after !! 0 = Some ("title Test" +:+ nl) /\
    raw_lines after !! 0 <> raw_lines crlf_content !! 0.
Proof.
  eexists _, _. split; [vm_compute; reflexivity|].
  split; [vm_compute; reflexivity|].
  split; [reflexivity|]. split; [reflexivity|]. split; [reflexivity|].
  vm_compute. discriminate.
Qed.

(** C4, amended: on an entry of more than one line on which
    [append_rootwait] succeeds, the lines before the last are, in the
    rewritten file, the lines that were read (in text mode, where a
    carriage return with or without line feed is read as a line feed), and
    the last line differs; when the original holds no carriage return the
    lines before the last are the lines on disk, byte for byte and with
    their terminators. *)
Theorem C4_lines_before_last_kept (path : string) (w : world) (name content : string)
    (pre : list string) (last : string) :
  dirs w !! entry_path path = Some [name] ->
  contains SLASH name = false ->
  files w !! file_full_path path name = Some content ->
  readlines content = pre ++ [last] ->
  1 <= length pre ->
  startswith last "options " = true ->
  exists w' after last',
    append_rootwait no_fault path w = (inr tt, w') /\
    files w' !! file_full_path path name = Some after /\
    readlines after = pre ++ [last'] /\
    raw_lines after = pre ++ [last'] /\
    last' <> last /\
    (contains CR content = false -> raw_lines content = pre ++ [last]).
Proof.
  intros Hdir Hname Hfile Hlines Hlen Hopt.
  pose proof (readlines_rewritten content pre last " rootwait" Hlines eq_refl eq_refl)
    as Hre.
  exists (World (dirs w)
            (<[file_full_path path name :=
                 join pre +:+ slice_to_minus1 last +:+ " rootwait" +:+ nl]> (files w))
            (io_log w ++ [(SysListdir, entry_path path);
                          (SysOpenRead, file_full_path path name);
                          (SysRead, file_full_path path name);
                          (SysUnlink, file_full_path path name);
                          (SysOpenWrite, file_full_path path name);
                          (SysWrite, file_full_path path name)])),
    (join pre +:+ slice_to_minus1 last +:+ " rootwait" +:+ nl),
    (code_options_line last).
  split; [|split; [|split; [|split; [|split]]]].
  - eapply append_rootwait_ok; try eassumption; reflexivity.
  - apply lookup_insert_eq.
  - exact Hre.
  - unfold raw_lines. unfold readlines in Hre.
    rewrite universal_newlines_id in Hre; [exact Hre|].
    rewrite <- str_app_assoc, (join_slice_last _ _ _ Hlines), contains_app.
    rewrite contains_slice by apply universal_newlines_no_cr. reflexivity.
  - apply code_options_line_differs.
  - intros Hcr. unfold raw_lines. unfold readlines in Hlines.
    rewrite universal_newlines_id in Hlines by exact Hcr. exact Hlines.
Qed.

Lemma C4_lines_before_last_kept_witness :
  exists w' after last',
    append_rootwait no_fault "/img" scenario_world = (inr tt, w') /\
    files w' !! file_full_path "/img" "entry.conf" = Some after /\
    readlines after = ["title Test" +:+ nl; "linux /vmlinuz" +:+ nl] ++ [last'] /\
    raw_lines after = ["title Test" +:+ nl; "linux /vmlinuz" +:+ nl] ++ [last'] /\
    last' <> "options root=/dev/sda1" +:+ nl /\
    (contains CR scenario_content = false ->
     raw_lines scenario_content
     = ["title Test" +:+ nl; "linux /vmlinuz" +:+ nl] ++ ["options root=/dev/sda1" +:+ nl]).
Proof.
  apply (C4_lines_before_last_kept "/img" scenario_world "entry.conf" scenario_content
           ["title Test" +:+ nl; "linux /vmlinuz" +:+ nl]
           ("options root=/dev/sda1" +:+ nl));
    try reflexivity.
  simpl. lia.
Defined.

(** C7 as stated fails when the open for writing fails: the run has
    removed the entry, the write step raises, and no file is left at the
    path of the entry. *)
Lemma C7_open_failure_counterexample :
  ~ (forall (fault : fault_plan) (path : string) (w : world)
            (name : string) (e : exn) (w' : world),
        dirs w !! entry_path path = Some [name] ->
        io_log w = [] ->
        append_rootwait fault path w = (inl e, w') ->
        In (SysOpenWrite, file_full_path path name) (io_log w') ->
        is_Some (files w' !! file_full_path path name)).
Proof.
  intros H.
  destruct (H (full_disk_at SysOpenWrite) "/img" scenario_world "entry.conf"
              (OSError 28 "No space left on device" (file_full_path "/img" "entry.conf"))
              (World (<[entry_path "/img" := []]> (dirs scenario_world))
                     (delete (file_full_path "/img" "entry.conf") (files scenario_world))
                     [(SysListdir, entry_path "/img");
                      (SysOpenRead, file_full_path "/img" "entry.conf");
                      (SysRead, file_full_path "/img" "entry.conf");
                      (SysUnlink, file_full_path "/img" "entry.conf");
                      (SysOpenWrite, file_full_path "/img" "entry.conf")])
              eq_refl eq_refl) as [x Hx].
  - eapply (append_rootwait_open_fails (full_disk_at SysOpenWrite) "/img" scenario_world
              "entry.conf" eq_refl scenario_content eq_refl eq_refl eq_refl eq_refl
              ["title Test" +:+ nl; "linux /vmlinuz" +:+ nl]
              ("options root=/dev/sda1" +:+ nl)); reflexivity.
  - cbn [io_log]. right. right. right. right. left. reflexivity.
  - cbn [files] in Hx. rewrite lookup_delete_eq in Hx. discriminate.
Qed.

(** C7, amended: when the write step fails after the entry has been
    removed, a file is still at the path of the entry provided the open
    for writing succeeded, the failure being in the write itself; when the
    open for writing fails, no file is at the path. *)
Theorem C7_file_after_unlink (fault : fault_plan)
    (path : string) (w : world) (name content : string)
    (pre : list string) (last : string) :
  dirs w !! entry_path path = Some [name] ->
  contains SLASH name = false ->
  files w !! file_full_path path name = Some content ->
  readlines content = pre ++ [last] ->
  startswith last "options " = true ->
  fault SysListdir = None -> fault SysOpenRead = None -> fault SysRead = None ->
  fault SysUnlink = None ->
  let out := append_rootwait fault path w in
  (forall n m, fault SysOpenWrite = Some (n, m) ->
     fst out = inl (OSError n m (file_full_path path name)) /\
     files (snd out) !! file_full_path path name = None) /\
  (forall n m, fault SysOpenWrite = None -> fault SysWrite = Some (n, m) ->
     fst out = inl (OSError n m (file_full_path path name)) /\
     is_Some (files (snd out) !! file_full_path path name)).
Proof.
  intros Hdir Hname Hfile Hlines Hopt F1 F2 F3 F4 out. subst out. split.
  - intros n m F5. erewrite append_rootwait_open_fails by eassumption.
    split; [reflexivity|]. apply lookup_delete_eq.
  - intros n m F5 F6. erewrite append_rootwait_write_fails by eassumption.
    split; [reflexivity|]. cbn [snd files]. rewrite lookup_insert_eq. eexists. reflexivity.
Qed.

Lemma C7_file_after_unlink_witness :
  (fst (append_rootwait (full_disk_at SysOpenWrite) "/img" scenario_world)
   = inl (OSError 28 "No space left on device" (file_full_path "/img" "entry.conf")) /\
   files (snd (append_rootwait (full_disk_at SysOpenWrite) "/img" scenario_world))
     !! file_full_path "/img" "entry.conf" = None) /\
  (fst (append_rootwait (file_too_large_after 11) "/img" scenario_world)
   = inl (OSError 27 "File too large" (file_full_path "/img" "entry.conf")) /\
   is_Some (files (snd (append_rootwait (file_too_large_after 11) "/img" scenario_world))
              !! file_full_path "/img" "entry.conf")).
Proof.
  split.
  - apply (proj1 (C7_file_after_unlink (full_disk_at SysOpenWrite) "/img" scenario_world
                    "entry.conf" scenario_content
                    ["title Test" +:+ nl; "linux /vmlinuz" +:+ nl]
                    ("options root=/dev/sda1" +:+ nl)
                    eq_refl eq_refl eq_refl eq_refl eq_refl
                    eq_refl eq_refl eq_refl eq_refl)).
    reflexivity.
  - apply (proj2 (C7_file_after_unlink (file_too_large_after 11) "/img" scenario_world
                    "entry.conf" scenario_content
                    ["title Test" +:+ nl; "linux /vmlinuz" +:+ nl]
                    ("options root=/dev/sda1" +:+ nl)
                    eq_refl eq_refl eq_refl eq_refl eq_refl
                    eq_refl eq_refl eq_refl eq_refl)); reflexivity.
Defined.

(** ** Every run, whatever the world and the platform *)

Section AnyRun.

Variable fault : fault_plan.

Lemma os_listdir_missing (p : string) (w : world) :
  fault SysListdir = None -> dirs w !! p = None ->
  os_listdir fault p w = (inl (ENOENT p), logged SysListdir p w).
Proof.
  intros Hf Hd. unfold os_listdir.
  rewrite (bind_value _ _ _ _ _ (attempt_ok fault _ _ _ Hf)).
  cbn [dirs logged]. rewrite Hd. reflexivity.
Qed.

Lemma open_readlines_missing (p : string) (w : world) :
  fault SysOpenRead = None -> files w !! p = None ->
  open_readlines fault p w
  = (inl (no_file (logged SysOpenRead p w) p), logged SysOpenRead p w).
Proof.
  intros Hf Hc. unfold open_readlines.
  rewrite (bind_value _ _ _ _ _ (attempt_ok fault _ _ _ Hf)).
  cbn [files logged]. rewrite Hc. reflexivity.
Qed.

Lemma nil_or_snoc {A : Type} (l : list A) : l = [] \/ exists pre last, l = pre ++ [last].
Proof.
  induction l as [|x l IH] using rev_ind; [left; reflexivity|].
  right. exists l, x. reflexivity.
Qed.

(** Writing touches the file at its path and no other. *)
Lemma open_writelines_files (p : string) (ls : list string) (w : world) :
  (fst (open_writelines fault p ls w) = inr tt ->
   files (snd (open_writelines fault p ls w)) = <[p := writelines ls]> (files w)) /\
  (forall q, q <> p ->
     files (snd (open_writelines fault p ls w)) !! q = files w !! q).
Proof.
  unfold open_writelines, bind, attempt.
  destruct (fault SysOpenWrite) as [[n m]|]; [split; [discriminate | reflexivity]|].
  destruct (path_split p) as [d b]. cbn [dirs files logged].
  destruct (dirs w !! d) as [listing|]; [|split; [discriminate | reflexivity]].
  unfold write_text.
  destruct (fault SysWrite) as [[n m]|]; cbn [fst snd files logged].
  - split; [discriminate|].
    intros q Hq. rewrite !lookup_insert_ne by congruence. reflexivity.
  - split; [intros _; apply insert_insert_eq|].
    intros q Hq. rewrite !lookup_insert_ne by congruence. reflexivity.
Qed.

(** Unlinking touches the file at its path and no other. *)
Lemma os_unlink_files (p : string) (w : world) :
  (forall w', os_unlink fault p w = (inr tt, w') -> files w' = delete p (files w)) /\
  (forall q, q <> p -> files (snd (os_unlink fault p w)) !! q = files w !! q).
Proof.
  unfold os_unlink, bind, attempt.
  destruct (fault SysUnlink) as [[n m]|]; [split; [discriminate | reflexivity]|].
  cbn [dirs files logged].
  destruct (files w !! p); [|split; [discriminate | reflexivity]].
  destruct (path_split p) as [d b]. split.
  - intros w' H. injection H as <-. reflexivity.
  - intros q Hq. cbn [snd files]. apply lookup_delete_ne. congruence.
Qed.

Variables (path : string) (w : world).

(** The run up to the point where the last line is known. *)
Lemma append_rootwait_read (name content : string) :
  dirs w !! entry_path path = Some [name] ->
  files w !! file_full_path path name = Some content ->
  fault SysListdir = None -> fault SysOpenRead = None -> fault SysRead = None ->
  forall pre last,
    readlines content = pre ++ [last] ->
    startswith last "options " = true ->
    append_rootwait fault path w
    = bind (os_unlink fault (file_full_path path name))
        (fun _ => open_writelines fault (file_full_path path name)
                    (pre ++ [slice_to_minus1 last +:+ " rootwait" +:+ nl]))
        (World (dirs w) (files w)
               (io_log w ++ [(SysListdir, entry_path path);
                             (SysOpenRead, file_full_path path name);
                             (SysRead, file_full_path path name)])).
Proof.
  intros Hdir Hfile F1 F2 F3 pre last Hlines Hopt.
  unfold append_rootwait. cbv zeta. fold (entry_path path).
  erewrite bind_value by (apply os_listdir_ok; [exact F1 | exact Hdir]).
  cbn [length Nat.eqb negb].
  erewrite bind_lift_value by reflexivity.
  fold (file_full_path path name).
  erewrite bind_value by (apply open_readlines_ok; [exact F2 | exact F3 | exact Hfile]).
  rewrite Hlines.
  erewrite bind_lift_value by apply getitem_last.
  rewrite Hopt. cbn [negb].
  erewrite bind_lift_value by apply setitem_last.
  unfold logged. cbn [dirs files io_log]. rewrite <- !List.app_assoc. reflexivity.
Qed.

(** A run that is not ready for its write step raises and leaves the
    directories and the files as they were. *)
Lemma append_rootwait_ready_or_untouched :
  ready fault path w \/
  exists e,
    fst (append_rootwait fault path w) = inl e /\
    dirs (snd (append_rootwait fault path w)) = dirs w /\
    files (snd (append_rootwait fault path w)) = files w.
Proof.
  destruct (fault SysListdir) as [[n m]|] eqn:F1.
  { right. unfold append_rootwait. cbv zeta.
    erewrite bind_raised by (apply os_listdir_fault; exact F1).
    eexists. repeat split. }
  destruct (dirs w !! entry_path path) as [names|] eqn:Hdir.
  2:{ right. unfold append_rootwait. cbv zeta. fold (entry_path path).
      erewrite bind_raised by (apply os_listdir_missing; [exact F1 | exact Hdir]).
      eexists. repeat split. }
  destruct (decide (length names = 1)) as [Hlen|Hlen].
  2:{ right. rewrite (append_rootwait_count fault path w names F1 Hdir Hlen).
      eexists. repeat split. }
  destruct names as [|name [|n2 names]]; try discriminate Hlen. clear Hlen.
  destruct (fault SysOpenRead) as [[n m]|] eqn:F2.
  { right. unfold append_rootwait. cbv zeta. fold (entry_path path).
    erewrite bind_value by (apply os_listdir_ok; [exact F1 | exact Hdir]).
    cbn [length Nat.eqb negb]. erewrite bind_lift_value by reflexivity.
    erewrite bind_raised by (apply open_readlines_fault_open; exact F2).
    eexists. repeat split. }
  destruct (files w !! file_full_path path name) as [content|] eqn:Hfile.
  2:{ right. unfold append_rootwait. cbv zeta. fold (entry_path path).
      erewrite bind_value by (apply os_listdir_ok; [exact F1 | exact Hdir]).
      cbn [length Nat.eqb negb]. erewrite bind_lift_value by reflexivity.
      erewrite bind_raised by (apply open_readlines_missing; [exact F2 | exact Hfile]).
      eexists. repeat split. }
  destruct (fault SysRead) as [[n m]|] eqn:F3.
  { right. unfold append_rootwait. cbv zeta. fold (entry_path path).
    erewrite bind_value by (apply os_listdir_ok; [exact F1 | exact Hdir]).
    cbn [length Nat.eqb negb]. erewrite bind_lift_value by reflexivity.
    erewrite bind_raised
      by (eapply open_readlines_fault_read; [exact F2 | exact F3 | exact Hfile]).
    eexists. repeat split. }
  destruct (nil_or_snoc (readlines content)) as [Hlines|(pre & last & Hlines)].
  { right.
    rewrite (append_rootwait_empty fault path w name Hdir content Hfile F1 F2 F3 Hlines).
    eexists. repeat split. }
  destruct (startswith last "options ") eqn:Hopt.
  2:{ right.
      rewrite (append_rootwait_prefix fault path w name Hdir content Hfile F1 F2 F3
                 pre last Hlines Hopt).
      eexists. repeat split. }
  destruct (fault SysUnlink) as [[n m]|] eqn:F4.
  { right.
    rewrite (append_rootwait_read name content Hdir Hfile F1 F2 F3
               pre last Hlines Hopt).
    erewrite bind_raised by (apply os_unlink_fault; exact F4).
    eexists. repeat split. }
  left. exists name, content, pre, last. repeat split; assumption.
Qed.

End AnyRun.

(** ** More facts about strings *)

Section MoreTextFacts.

#[local] Arguments Ascii.eqb : simpl never.

Lemma str_length_app (s t : string) :
  String.length (s +:+ t) = String.length s + String.length t.
Proof.
  induction s as [|c s IH]; [reflexivity|].
  rewrite str_app_cons. simpl. rewrite IH. reflexivity.
Qed.

Lemma str_length_slice (s : string) :
  String.length (slice_to_minus1 s) = pred (String.length s).
Proof.
  induction s as [|c s IH]; [reflexivity|].
  destruct s as [|d s]; [reflexivity|].
  rewrite slice_cons. cbn [String.length pred] in *. rewrite IH. reflexivity.
Qed.

(** Reading never makes a text longer. *)
Lemma universal_newlines_length (s : string) :
  String.length (universal_newlines s) <= String.length s.
Proof.
  enough (String.length (universal_newlines s) <= String.length s /\
          forall c, String.length (universal_newlines (String c s))
                    <= S (String.length s)) as [H _] by exact H.
  induction s as [|d s [IH1 IH2]].
  - split; [reflexivity|]. intros c. simpl. destruct (Ascii.eqb c CR); simpl; lia.
  - split; [apply IH2|]. intros c.
    change (universal_newlines (String c (String d s))) with
      (if Ascii.eqb c CR then
         if Ascii.eqb d LF then String LF (universal_newlines s)
         else String LF (universal_newlines (String d s))
       else String c (universal_newlines (String d s))).
    specialize (IH2 d).
    destruct (Ascii.eqb c CR); [destruct (Ascii.eqb d LF)|]; simpl String.length in *; lia.
Qed.

Lemma startswith_app (p r : string) : startswith (p +:+ r) p = true.
Proof.
  unfold startswith. induction p as [|c p IH]; [destruct r; reflexivity|].
  rewrite str_app_cons. simpl. destruct (ascii_dec c c); [exact IH | contradiction].
Qed.

Lemma startswith_inv (p s : string) :
  startswith s p = true -> exists r, s = p +:+ r.
Proof.
  unfold startswith. revert s. induction p as [|c p IH]; intros s H.
  - exists s. reflexivity.
  - destruct s as [|d s]; [discriminate|]. simpl in H.
    destruct (ascii_dec c d) as [->|]; [|discriminate].
    destruct (IH s H) as [r ->]. exists r. reflexivity.
Qed.

(** The line the script writes passes the gate the old line passed. *)
Lemma code_options_line_prefix (last : string) :
  startswith last "options " = true ->
  startswith (code_options_line last) "options " = true.
Proof.
  intros H. destruct (startswith_inv _ _ H) as [r ->]. unfold code_options_line.
  destruct r as [|c r].
  - reflexivity.
  - rewrite slice_app by discriminate. rewrite str_app_assoc. apply startswith_app.
Qed.

(** The script's line on a line that a newline closes. *)
Lemma code_options_line_nl (body : string) :
  code_options_line (body +:+ nl) = body +:+ " rootwait" +:+ nl.
Proof. unfold code_options_line. rewrite slice_nl. reflexivity. Qed.

End MoreTextFacts.

(** ** What a run guarantees *)

(** A run that succeeds was ready for its write step and wrote the
    patched lines at the path of the entry. *)
Lemma append_rootwait_success_files (fault : fault_plan)
    (path : string) (w w' : world) :
  append_rootwait fault path w = (inr tt, w') ->
  exists name content pre last,
    dirs w !! entry_path path = Some [name] /\
    files w !! file_full_path path name = Some content /\
    readlines content = pre ++ [last] /\
    startswith last "options " = true /\
    (fault SysListdir = None /\ fault SysOpenRead = None /\
     fault SysRead = None /\ fault SysUnlink = None) /\
    files w' = <[file_full_path path name := join pre +:+ code_options_line last]> (files w).
Proof.
  intros Hrun.
  destruct (append_rootwait_ready_or_untouched fault path w)
    as [(name & content & pre & last & Hdir & Hfile & Hlines & Hopt & F1 & F2 & F3 & F4)
       |(e & He & _)].
  2:{ rewrite Hrun in He. discriminate. }
  exists name, content, pre, last. repeat split; try assumption.
  rewrite (append_rootwait_read fault path w name content Hdir Hfile F1 F2 F3
             pre last Hlines Hopt) in Hrun.
  unfold bind in Hrun.
  destruct (os_unlink fault (file_full_path path name) _) as [[e|[]] w4] eqn:E;
    [discriminate|].
  apply (proj1 (os_unlink_files fault _ _)) in E. cbn [files] in E.
  pose proof (proj1 (open_writelines_files fault (file_full_path path name)
                       (pre ++ [slice_to_minus1 last +:+ " rootwait" +:+ nl]) w4)) as Hw.
  rewrite Hrun in Hw. cbn [fst snd] in Hw. rewrite (Hw eq_refl), E, insert_delete_eq.
  unfold writelines. rewrite join_app, join_singleton. reflexivity.
Qed.

(** X1: whatever the world and the platform, a run of [append_rootwait]
    that returns found exactly one entry whose last line starts with
    [options ], and left at its path the text it read (with universal
    newlines) less its last character, then [ rootwait] and a newline. *)
Theorem successful_run_patched_entry (fault : fault_plan)
    (path : string) (w : world) :
  fst (append_rootwait fault path w) = inr tt ->
  exists name content pre last,
    dirs w !! entry_path path = Some [name] /\
    files w !! file_full_path path name = Some content /\
    readlines content = pre ++ [last] /\
    startswith last "options " = true /\
    files (snd (append_rootwait fault path w))
    = <[file_full_path path name :=
          slice_to_minus1 (universal_newlines content) +:+ " rootwait" +:+ nl]> (files w).
Proof.
  intros H. destruct (append_rootwait fault path w) as [r w'] eqn:Hrun.
  cbn [fst snd] in *. subst r.
  destruct (append_rootwait_success_files fault path w w' Hrun)
    as (name & content & pre & last & Hdir & Hfile & Hlines & Hopt & _ & Hfiles).
  exists name, content, pre, last. repeat split; try assumption.
  rewrite Hfiles. unfold code_options_line.
  rewrite <- str_app_assoc, (join_slice_last _ _ _ Hlines). reflexivity.
Qed.

Lemma successful_run_patched_entry_witness :
  exists name content pre last,
    dirs scenario_world !! entry_path "/img" = Some [name] /\
    files scenario_world !! file_full_path "/img" name = Some content /\
    readlines content = pre ++ [last] /\
    startswith last "options " = true /\
    files (snd (append_rootwait no_fault "/img" scenario_world))
    = <[file_full_path "/img" name :=
          slice_to_minus1 (universal_newlines content) +:+ " rootwait" +:+ nl]>
        (files scenario_world).
Proof.
  apply (successful_run_patched_entry no_fault "/img" scenario_world). reflexivity.
Defined.

(** X2: a run of [append_rootwait] either was ready for its write step
    (one entry, read, last line starting with [options ], no call failed
    up to and including the unlink), or it raises and leaves every
    directory and every file as it was. *)
Theorem unready_run_raises_untouched (fault : fault_plan)
    (path : string) (w : world) :
  ready fault path w \/
  exists e,
    fst (append_rootwait fault path w) = inl e /\
    dirs (snd (append_rootwait fault path w)) = dirs w /\
    files (snd (append_rootwait fault path w)) = files w.
Proof. apply append_rootwait_ready_or_untouched. Qed.

(** X3: whatever the outcome, a run of [append_rootwait] leaves every
    file other than the entry as it was. *)
Theorem other_files_untouched (fault : fault_plan)
    (path : string) (w : world) (q : string) :
  (forall name, dirs w !! entry_path path = Some [name] ->
                q <> file_full_path path name) ->
  files (snd (append_rootwait fault path w)) !! q = files w !! q.
Proof.
  intros Hq.
  destruct (append_rootwait_ready_or_untouched fault path w)
    as [(name & content & pre & last & Hdir & Hfile & Hlines & Hopt & F1 & F2 & F3 & F4)
       |(e & _ & _ & Hfiles)].
  2:{ rewrite Hfiles. reflexivity. }
  specialize (Hq name Hdir).
  rewrite (append_rootwait_read fault path w name content Hdir Hfile F1 F2 F3
             pre last Hlines Hopt).
  unfold bind.
  pose proof (proj2 (os_unlink_files fault (file_full_path path name)
                       (World (dirs w) (files w)
                              (io_log w ++ [(SysListdir, entry_path path);
                                            (SysOpenRead, file_full_path path name);
                                            (SysRead, file_full_path path name)])))
                q Hq) as Hu.
  destruct (os_unlink fault (file_full_path path name) _) as [[e|u] w4].
  - exact Hu.
  - rewrite (proj2 (open_writelines_files fault _ _ w4) q Hq). exact Hu.
Qed.

Lemma other_files_untouched_witness :
  files (snd (append_rootwait no_fault "/img" neighbour_world)) !! "/img/etc/fstab"
  = files neighbour_world !! "/img/etc/fstab".
Proof.
  apply (other_files_untouched no_fault "/img" neighbour_world "/img/etc/fstab").
  intros name H. vm_compute in H. injection H as <-. discriminate.
Defined.

(** X4: a run that returns leaves the entry nine characters longer than
    the text it read: one character goes, the ten of [ rootwait] and the
    newline come.  The entry on disk grows by at most nine characters, and
    by nine exactly when it held no carriage return. *)
Theorem successful_run_grows_by_nine (fault : fault_plan)
    (path : string) (w : world) :
  fst (append_rootwait fault path w) = inr tt ->
  exists name content after,
    dirs w !! entry_path path = Some [name] /\
    files w !! file_full_path path name = Some content /\
    files (snd (append_rootwait fault path w)) !! file_full_path path name = Some after /\
    String.length after = String.length (universal_newlines content) + 9 /\
    String.length after <= String.length content + 9 /\
    (contains CR content = false -> String.length after = String.length content + 9).
Proof.
  intros H. destruct (append_rootwait fault path w) as [r w'] eqn:Hrun.
  cbn [fst snd] in *. subst r.
  destruct (append_rootwait_success_files fault path w w' Hrun)
    as (name & content & pre & last & Hdir & Hfile & Hlines & Hopt & _ & Hfiles).
  exists name, content, (join pre +:+ code_options_line last).
  split; [exact Hdir|]. split; [exact Hfile|].
  split; [rewrite Hfiles; apply lookup_insert_eq|].
  assert (Hlen : String.length (join pre +:+ code_options_line last)
                 = String.length (universal_newlines content) + 9).
  { unfold code_options_line.
    rewrite <- str_app_assoc, (join_slice_last _ _ _ Hlines).
    rewrite !str_length_app, str_length_slice.
    destruct (universal_newlines content) as [|c u] eqn:Eu.
    - unfold readlines in Hlines. rewrite Eu in Hlines. destruct pre; discriminate.
    - simpl. lia. }
  split; [exact Hlen|]. split.
  - rewrite Hlen. pose proof (universal_newlines_length content). lia.
  - intros Hcr. rewrite Hlen, (universal_newlines_id _ Hcr). reflexivity.
Qed.

Lemma successful_run_grows_by_nine_witness :
  exists name content after,
    dirs scenario_world !! entry_path "/img" = Some [name] /\
    files scenario_world !! file_full_path "/img" name = Some content /\
    files (snd (append_rootwait no_fault "/img" scenario_world))
      !! file_full_path "/img" name = Some after /\
    String.length after = String.length (universal_newlines content) + 9 /\
    String.length after <= String.length content + 9 /\
    (contains CR content = false -> String.length after = String.length content + 9).
Proof.
  apply (successful_run_grows_by_nine no_fault "/img" scenario_world). reflexivity.
Defined.

(** X5: the line [append_rootwait] writes starts with [options ] whenever
    the line it replaces does, also when that line is [options ] alone and
    loses its space: the script accepts what it wrote. *)
Theorem rewritten_line_passes_gate (last : string) :
  startswith last "options " = true ->
  startswith (slice_to_minus1 last +:+ " rootwait" +:+ nl) "options " = true.
Proof. apply code_options_line_prefix. Qed.

Lemma rewritten_line_passes_gate_witness :
  startswith (slice_to_minus1 "options " +:+ " rootwait" +:+ nl) "options " = true.
Proof. apply (rewritten_line_passes_gate "options "). reflexivity. Defined.

Lemma iter_code_options_line (n : nat) (last : string) :
  Nat.iter (S n) code_options_line last
  = slice_to_minus1 last +:+ rootwaits (S n) +:+ nl.
Proof.
  induction n as [|n IH]; [reflexivity|].
  rewrite Nat.iter_succ, IH, <- str_app_assoc, code_options_line_nl.
  cbn [rootwaits]. rewrite !str_app_assoc. reflexivity.
Qed.

Lemma runs_iter (path name : string) (pre : list string) :
  contains SLASH name = false ->
  forall (n : nat) (w : world) (content last : string),
    dirs w !! entry_path path = Some [name] ->
    files w !! file_full_path path name = Some content ->
    readlines content = pre ++ [last] ->
    startswith last "options " = true ->
    fst (runs no_fault path n w) = inr tt /\
    readlines <$> files (snd (runs no_fault path n w)) !! file_full_path path name
    = Some (pre ++ [Nat.iter n code_options_line last]).
Proof.
  intros Hname. induction n as [|n IH]; intros w content last Hdir Hfile Hlines Hopt.
  - cbn [runs ret fst snd Nat.iter]. rewrite Hfile. cbn. rewrite Hlines. split; reflexivity.
  - cbn [runs].
    erewrite bind_value
      by (eapply (append_rootwait_ok no_fault path w name Hdir content Hfile
                    eq_refl eq_refl eq_refl pre last Hlines Hopt Hname);
          reflexivity).
    rewrite Nat.iter_succ_r.
    eapply IH.
    + exact Hdir.
    + cbn [files]. apply lookup_insert_eq.
    + apply (readlines_rewritten content pre last " rootwait" Hlines eq_refl eq_refl).
    + apply code_options_line_prefix, Hopt.
Qed.

(** X6: called [n + 1] times in a row on a well-formed entry, with no
    failure of the platform, [append_rootwait] succeeds each time, and the
    last line ends up as the old one less its last character, [n + 1]
    times [ rootwait], and a newline; the lines before are as they were
    read. *)
Theorem repeated_runs_accumulate (path : string) (w : world) (name content : string)
    (pre : list string) (last : string) (n : nat) :
  dirs w !! entry_path path = Some [name] ->
  contains SLASH name = false ->
  files w !! file_full_path path name = Some content ->
  readlines content = pre ++ [last] ->
  startswith last "options " = true ->
  fst (runs no_fault path (S n) w) = inr tt /\
  readlines <$> files (snd (runs no_fault path (S n) w)) !! file_full_path path name
  = Some (pre ++ [slice_to_minus1 last +:+ rootwaits (S n) +:+ nl]).
Proof.
  intros Hdir Hname Hfile Hlines Hopt.
  rewrite <- iter_code_options_line.
  eapply runs_iter; eassumption.
Qed.

Lemma repeated_runs_accumulate_witness :
  fst (runs no_fault "/img" 3 console_world) = inr tt /\
  readlines <$> files (snd (runs no_fault "/img" 3 console_world))
                  !! file_full_path "/img" "entry.conf"
  = Some (["title Test" +:+ nl]
          ++ [slice_to_minus1 ("options console=ttyS0" +:+ nl) +:+ rootwaits 3 +:+ nl]).
Proof.
  apply (repeated_runs_accumulate "/img" console_world "entry.conf"
           ("title Test" +:+ nl +:+ "options console=ttyS0" +:+ nl)
           ["title Test" +:+ nl] ("options console=ttyS0" +:+ nl) 2);
    reflexivity.
Defined.

(** X7: when the process exits with [0], it was given one argument,
    printed nothing, found exactly one entry under that root, and left at
    its path the text it read less its last character, then [ rootwait]
    and a newline. *)
Theorem exit_zero_means_patched (fault : fault_plan)
    (argv : list string) (w : world) :
  exit_code (main fault argv w) = 0%Z ->
  exists prog arg name content,
    argv = [prog; arg] /\
    stdout (main fault argv w) = EmptyString /\
    dirs w !! entry_path arg = Some [name] /\
    files w !! file_full_path arg name = Some content /\
    files (final (main fault argv w)) !! file_full_path arg name
    = Some (slice_to_minus1 (universal_newlines content) +:+ " rootwait" +:+ nl).
Proof.
  intros H. unfold main in *.
  destruct argv as [|prog [|arg [|x rest]]]; try discriminate H.
  cbn [length Nat.eqb negb] in *.
  change (getitem [prog; arg] 1) with (@inr exn string arg) in *. cbv iota in *.
  destruct (append_rootwait fault arg w) as [[e|[]] w'] eqn:Hrun; [discriminate H|].
  cbn [exit_code stdout final] in *.
  destruct (append_rootwait_success_files fault arg w w' Hrun)
    as (name & content & pre & last & Hdir & Hfile & Hlines & Hopt & _ & Hfiles).
  exists prog, arg, name, content. repeat split; try assumption.
  rewrite Hfiles, lookup_insert_eq. unfold code_options_line.
  rewrite <- str_app_assoc, (join_slice_last _ _ _ Hlines). reflexivity.
Qed.

Lemma exit_zero_means_patched_witness :
  exists prog arg name content,
    ["live-image-post-update-version.py"; "/img"] = [prog; arg] /\
    stdout (main no_fault ["live-image-post-update-version.py"; "/img"] scenario_world)
    = EmptyString /\
    dirs scenario_world !! entry_path arg = Some [name] /\
    files scenario_world !! file_full_path arg name = Some content /\
    files (final (main no_fault ["live-image-post-update-version.py"; "/img"]
                    scenario_world)) !! file_full_path arg name
    = Some (slice_to_minus1 (universal_newlines content) +:+ " rootwait" +:+ nl).
Proof.
  apply (exit_zero_means_patched no_fault
           ["live-image-post-update-version.py"; "/img"] scenario_world).
  reflexivity.
Defined.

(** X8: on an entry of any number of lines whose last line starts with
    [options ] and ends with a newline, [append_rootwait] succeeds and the
    entry read again gives the same lines before the last, and as last
    line the old one with [ rootwait] put before its newline: nothing of
    the kernel command line is lost. *)
Theorem terminated_line_keeps_arguments (path : string) (w : world)
    (name content : string) (pre : list string) (body : string) :
  dirs w !! entry_path path = Some [name] ->
  contains SLASH name = false ->
  files w !! file_full_path path name = Some content ->
  readlines content = pre ++ [body +:+ nl] ->
  startswith (body +:+ nl) "options " = true ->
  fst (append_rootwait no_fault path w) = inr tt /\
  readlines <$> files (snd (append_rootwait no_fault path w)) !! file_full_path path name
  = Some (pre ++ [body +:+ " rootwait" +:+ nl]).
Proof.
  intros Hdir Hname Hfile Hlines Hopt.
  rewrite (append_rootwait_ok no_fault path w name Hdir content Hfile
             eq_refl eq_refl eq_refl pre (body +:+ nl) Hlines Hopt Hname eq_refl
             eq_refl eq_refl).
  split; [reflexivity|]. cbn [snd files]. rewrite lookup_insert_eq. cbn [fmap option_fmap option_map].
  rewrite (readlines_rewritten content pre (body +:+ nl) " rootwait" Hlines eq_refl eq_refl).
  rewrite slice_nl. reflexivity.
Qed.

Lemma terminated_line_keeps_arguments_witness :
  fst (append_rootwait no_fault "/img" scenario_world) = inr tt /\
  readlines <$> files (snd (append_rootwait no_fault "/img" scenario_world))
                  !! file_full_path "/img" "entry.conf"
  = Some (["title Test" +:+ nl; "linux /vmlinuz" +:+ nl]
          ++ ["options root=/dev/sda1" +:+ " rootwait" +:+ nl]).
Proof.
  apply (terminated_line_keeps_arguments "/img" scenario_world "entry.conf"
           scenario_content ["title Test" +:+ nl; "linux /vmlinuz" +:+ nl]
           "options root=/dev/sda1"); reflexivity.
Defined.

(** X9: a run that returns made six calls, in this order and each once:
    the listing of the entries directory, then on the entry the open for
    reading, the read, the unlink, the open for writing and the write; and
    it leaves every directory listing as it was, the entry being back
    under its name. *)
Theorem successful_run_calls (fault : fault_plan)
    (path : string) (w : world) (name : string) :
  dirs w !! entry_path path = Some [name] ->
  contains SLASH name = false ->
  fst (append_rootwait fault path w) = inr tt ->
  dirs (snd (append_rootwait fault path w)) = dirs w /\
  io_log (snd (append_rootwait fault path w))
  = io_log w ++ [(SysListdir, entry_path path);
                 (SysOpenRead, file_full_path path name);
                 (SysRead, file_full_path path name);
                 (SysUnlink, file_full_path path name);
                 (SysOpenWrite, file_full_path path name);
                 (SysWrite, file_full_path path name)].
Proof.
  intros Hdir Hname H.
  destruct (append_rootwait fault path w) as [r w'] eqn:Hrun.
  cbn [fst snd] in *. subst r.
  destruct (append_rootwait_success_files fault path w w' Hrun)
    as (name' & content & pre & last & Hdir' & Hfile & Hlines & Hopt
        & (F1 & F2 & F3 & F4) & _).
  rewrite Hdir in Hdir'. injection Hdir' as <-.
  destruct (fault SysOpenWrite) as [[n m]|] eqn:F5.
  { rewrite (append_rootwait_open_fails fault path w name Hdir content Hfile F1 F2 F3
               pre last Hlines Hopt Hname F4 n m F5) in Hrun. discriminate. }
  destruct (fault SysWrite) as [[n m]|] eqn:F6.
  { rewrite (append_rootwait_write_fails fault path w name Hdir content Hfile F1 F2 F3
               pre last Hlines Hopt Hname F4 n m F5 F6) in Hrun. discriminate. }
  rewrite (append_rootwait_ok fault path w name Hdir content Hfile F1 F2 F3
             pre last Hlines Hopt Hname F4 F5 F6) in Hrun.
  injection Hrun as <-. split; reflexivity.
Qed.

Lemma successful_run_calls_witness :
  dirs (snd (append_rootwait no_fault "/img" neighbour_world)) = dirs neighbour_world /\
  io_log (snd (append_rootwait no_fault "/img" neighbour_world))
  = io_log neighbour_world
    ++ [(SysListdir, entry_path "/img");
        (SysOpenRead, file_full_path "/img" "entry.conf");
        (SysRead, file_full_path "/img" "entry.conf");
        (SysUnlink, file_full_path "/img" "entry.conf");
        (SysOpenWrite, file_full_path "/img" "entry.conf");
        (SysWrite, file_full_path "/img" "entry.conf")].
Proof.
  apply (successful_run_calls no_fault "/img" neighbour_world "entry.conf");
    reflexivity.
Defined.

(** X10: the process either was given one argument and reached the write
    step of [append_rootwait], or it exits with [-1] and leaves every
    directory and every file as it was. *)
Theorem main_patches_or_leaves_untouched (fault : fault_plan)
    (argv : list string) (w : world) :
  (exists prog arg, argv = [prog; arg] /\ ready fault arg w) \/
  (exit_code (main fault argv w) = (-1)%Z /\
   dirs (final (main fault argv w)) = dirs w /\
   files (final (main fault argv w)) = files w).
Proof.
  destruct (decide (length argv = 2)) as [Hlen|Hlen].
  2:{ right. unfold main.
      destruct (Nat.eqb_spec (length argv) 2) as [E|_]; [contradiction|].
      repeat split. }
  destruct argv as [|prog [|arg [|x rest]]]; try discriminate Hlen.
  destruct (append_rootwait_ready_or_untouched fault arg w)
    as [Hready|(e & He & Hdirs & Hfiles)].
  { left. exists prog, arg. split; [reflexivity | exact Hready]. }
  right. unfold main. cbn [length Nat.eqb negb].
  change (getitem [prog; arg] 1) with (@inr exn string arg). cbv iota.
  destruct (append_rootwait fault arg w) as [[e'|u] w'];
    cbn [fst snd] in *; [|discriminate He].
  repeat split; assumption.
Qed.
